(** * Youth Wellness app: crisis-keyword detection, chat hand-off and
      the box-breathing timer of [app.py]

    The development embeds the three pieces of [main()] that carry logic:
    the crisis check of the chat page (lines 163-188), the helpline table
    (lines 87-93) and the one-minute breathing loop (lines 220-241).
    Beyond these it covers the database functions (lines 12-62), the
    pages that call them, the conversation shown under the chat box and
    whole runs of the breathing loop.

    Conventions of the embedding.
    - A Python [str] is a Rocq [string]; a character is read as a code
      point below 256 (ASCII and Latin-1), on which [lower] and the
      white-space test agree with [str.lower] and [str.isspace].  The two
      characters of the interface texts that lie outside that range (the
      warning sign and the long dash) only occur in constant texts that
      are compared for equality, and are written as they are in the file.
    - A Python [float] holding a number of seconds is an exact rational
      ([Q]); the rounding of binary64 arithmetic is not modelled.
    - Streamlit calls are recorded as a list of interface events. *)

From Stdlib Require Import ZArith QArith Qround Qminmax Lqa.
From Stdlib Require Import List Bool Ascii String Lia.
From Stdlib Require Import Sorted Permutation DecimalString.
Import ListNotations.

(** ** Python string operations used by the chat page *)

Module PyStr.

Local Open Scope N_scope.

(** [str.lower] on one character: the ASCII capitals and the Latin-1
    capitals U+00C0..U+00DE (the multiplication sign U+00D7 excepted)
    move up by 32; every other character below 256 is its own lower
    case. *)
Definition lower_char (c : ascii) : ascii :=
  let n := N_of_ascii c in
  if ((65 <=? n) && (n <=? 90))
     || ((192 <=? n) && (n <=? 222) && negb (n =? 215))
  then ascii_of_N (n + 32)
  else c.

Fixpoint lower (s : string) : string :=
  match s with
  | EmptyString => EmptyString
  | String c s' => String (lower_char c) (lower s')
  end.

(** [str.isspace] on one character: tab, line feed, vertical tab, form
    feed, carriage return, the four separators U+001C..U+001F, space,
    next-line U+0085 and no-break space U+00A0. *)
Definition is_space (c : ascii) : bool :=
  let n := N_of_ascii c in
  ((9 <=? n) && (n <=? 13)) || ((28 <=? n) && (n <=? 32))
  || (n =? 133) || (n =? 160).

Definition is_empty (s : string) : bool :=
  match s with
  | EmptyString => true
  | String _ _ => false
  end.

Fixpoint lstrip (s : string) : string :=
  match s with
  | EmptyString => EmptyString
  | String c s' => if is_space c then lstrip s' else s
  end.

Fixpoint rstrip (s : string) : string :=
  match s with
  | EmptyString => EmptyString
  | String c s' =>
      let r := rstrip s' in
      if is_space c && is_empty r then EmptyString else String c r
  end.

(** [s.strip()] *)
Definition strip (s : string) : string := rstrip (lstrip s).

(** [s[n:]]: the slice is empty when [n] is past the end. *)
Fixpoint slice_from (n : nat) (s : string) : string :=
  match n, s with
  | O, _ => s
  | S _, EmptyString => EmptyString
  | S n', String _ s' => slice_from n' s'
  end.

(** [s.startswith(k)] *)
Fixpoint starts_with (k s : string) : bool :=
  match k, s with
  | EmptyString, _ => true
  | String _ _, EmptyString => false
  | String a k', String b s' => Ascii.eqb a b && starts_with k' s'
  end.

(** [k in s]: [k] occurs in [s] as a contiguous substring. *)
Fixpoint contains (k s : string) : bool :=
  starts_with k s
  || match s with
     | EmptyString => false
     | String _ s' => contains k s'
     end.

(** Every character of [s] is white space. *)
Fixpoint blank (s : string) : bool :=
  match s with
  | EmptyString => true
  | String c s' => is_space c && blank s'
  end.

(** The relation behind [k in s]. *)
Definition occurs_in (k s : string) : Prop :=
  exists pre post : string, s = (pre ++ k ++ post)%string.

End PyStr.

(** ** Crisis keywords and helplines (lines 87-93) *)

Module Crisis.
Import PyStr.
Local Open Scope string_scope.

Definition CRISIS_KEYWORDS : list string :=
  ["suicide"; "kill myself"; "want to die"; "die"; "hopeless";
   "worthless"; "end my life"].

(** A [dict] literal keeps its insertion order, which [items()] follows. *)
Definition HELPLINES : list (string * string) :=
  [("India (NIMHANS)", "080-4611-0007");
   ("iCall India", "+91 9152987821");
   ("US (988)", "988");
   ("International (if available)",
    "Contact local emergency services / national lifeline")].

(** Lines 168-169: [low = user_input.lower()] and
    [any(k in low for k in CRISIS_KEYWORDS)]. *)
Definition crisis_check (user_input : string) : bool :=
  let low := lower user_input in
  existsb (fun k => contains k low) CRISIS_KEYWORDS.

(** The list the specification calls [matchedTerms]: the keywords that
    occur in the lower-cased message, in the order of the keyword list.
    The program computes no such list; this definition follows the
    specification's words and is what the program is compared with. *)
Definition matchedTerms_spec (message : string) : list string :=
  filter (fun k => contains k (lower message)) CRISIS_KEYWORDS.

End Crisis.

(** ** The chat page: what pressing "Send" does (lines 163-188) *)

Module Chat.
Import PyStr Crisis.
Local Open Scope string_scope.

(** Streamlit calls that put something on the page. *)
Inductive ui_event : Type :=
| st_warning (body : string)
| st_error (body : string)
| st_write (body : string)
| st_spinner (text : string).

(** What one run of the handler can change: the page, the prompts handed
    to the text-generation pipeline, and [st.session_state.chat_history]. *)
Record page : Type := mkPage {
  screen : list ui_event;
  prompts : list string;
  chat_history : list (string * string)
}.

(** A state monad over [page]. *)
Definition M (A : Type) : Type := page -> A * page.

Definition ret {A : Type} (a : A) : M A := fun p => (a, p).

Definition bind {A B : Type} (m : M A) (k : A -> M B) : M B :=
  fun p => let (a, p') := m p in k a p'.

Notation "x <- m ;; k" := (bind m (fun x => k))
  (at level 61, m at next level, right associativity).
Notation "m ;; k" := (bind m (fun _ => k))
  (at level 61, right associativity).

Definition show (e : ui_event) : M unit :=
  fun p => (tt, mkPage (screen p ++ [e]) (prompts p) (chat_history p)).

(** [st.session_state.chat_history.append(entry)] *)
Definition history_append (entry : string * string) : M unit :=
  fun p => (tt, mkPage (screen p) (prompts p) (chat_history p ++ [entry])).

(** [for x in xs: body(x)] *)
Fixpoint for_each {A : Type} (xs : list A) (body : A -> M unit) : M unit :=
  match xs with
  | [] => ret tt
  | x :: xs' => body x ;; for_each xs' body
  end.

Definition when (b : bool) (m : M unit) : M unit :=
  if b then m else ret tt.

Definition crisis_message : string :=
  "⚠ It looks like you may be in crisis or feeling unsafe. Please reach out to a helpline or trusted person immediately.".

Definition danger_message : string :=
  "If you are in immediate danger, contact emergency services in your country.".

(** The f-string of line 172. *)
Definition helpline_line (name num : string) : string :=
  name ++ "** — " ++ num.

Section Handler.

(** The text-generation pipeline is opaque: [generated_text prompt] is
    the ["generated_text"] field of the first result it returns for
    [prompt] on this run. *)
Variable generated_text : string -> string.

(** [chat_model(user_input, ...)][[0]["generated_text"]] *)
Definition chat_model (prompt : string) : M string :=
  fun p => (generated_text prompt,
            mkPage (screen p) (prompts p ++ [prompt]) (chat_history p)).

(** The body of [if send:]. *)
Definition on_send (user_input : string) : M unit :=
  if is_empty (strip user_input) then
    show (st_warning "Please type something before sending.")
  else
    let low := lower user_input in
    when (existsb (fun k => contains k low) CRISIS_KEYWORDS)
      (show (st_error crisis_message) ;;
       for_each HELPLINES
         (fun '(name, num) => show (st_write (helpline_line name num))) ;;
       show (st_write danger_message)) ;;
    show (st_spinner "AI is thinking...") ;;
    gen <- chat_model user_input ;;
    let reply := strip (slice_from (String.length user_input) gen) in
    let reply := if is_empty reply then gen else reply in
    history_append ("You", user_input) ;;
    history_append ("AI", reply).

(** The same handler with the crisis branch (lines 169-173) removed;
    it is what [on_send] is compared with. *)
Definition on_send_no_crisis_branch (user_input : string) : M unit :=
  if is_empty (strip user_input) then
    show (st_warning "Please type something before sending.")
  else
    show (st_spinner "AI is thinking...") ;;
    gen <- chat_model user_input ;;
    let reply := strip (slice_from (String.length user_input) gen) in
    let reply := if is_empty reply then gen else reply in
    history_append ("You", user_input) ;;
    history_append ("AI", reply).

(** The reply stored for [user_input] (lines 179-185). *)
Definition reply_of (user_input : string) : string :=
  let gen := generated_text user_input in
  let reply := strip (slice_from (String.length user_input) gen) in
  if is_empty reply then gen else reply.

End Handler.

(** What the crisis branch puts on the page. *)
Definition crisis_banner : list ui_event :=
  [st_error crisis_message;
   st_write "India (NIMHANS)** — 080-4611-0007";
   st_write "iCall India** — +91 9152987821";
   st_write "US (988)** — 988";
   st_write "International (if available)** — Contact local emergency services / national lifeline";
   st_write danger_message].

(** A stand-in for the model: it answers every prompt with the prompt
    followed by a fixed continuation. *)
Definition echo_model (prompt : string) : string := prompt ++ " I hear you.".

Definition empty_page : page := mkPage [] [] [].

Definition thinking : ui_event := st_spinner "AI is thinking...".

Definition please_type : ui_event :=
  st_warning "Please type something before sending.".

End Chat.

(** ** The breathing exercise (lines 220-241) *)

Module Breathing.
Local Open Scope Q_scope.

(** *** Python arithmetic on numbers of seconds *)

(** [int(x)] on a float: the fraction is dropped, rounding toward zero. *)
Definition py_int (x : Q) : Z := Z.quot (Qnum x) (Zpos (Qden x)).

(** [x // y] on floats, for a divisor that is not zero. *)
Definition py_floordiv (x y : Q) : Q := inject_Z (Qfloor (x / y)).

(** [x % y] on floats, for a divisor that is not zero: the remainder has
    the sign of the divisor. *)
Definition py_mod (x y : Q) : Q := x - y * inject_Z (Qfloor (x / y)).

(** *** The loop *)

Definition total_seconds : Q := 60.

(** [elapsed = time.time() - t0] *)
Definition elapsed (t0 now : Q) : Q := now - t0.

(** Line 229: the argument of [prog.progress]. *)
Definition progress_arg (elapsed : Q) : Z :=
  py_int ((elapsed / total_seconds) * 100).

(** Line 230: [phase = int((elapsed % 16) // 4)]. *)
Definition phase (elapsed : Q) : Z :=
  py_int (py_floordiv (py_mod elapsed 16) 4).

(** The four branches of lines 231-238. *)
Inductive PhaseLabel : Type := Inhale | Hold1 | Exhale | Hold2.

Definition branch (phase : Z) : PhaseLabel :=
  if (phase =? 0)%Z then Inhale
  else if (phase =? 1)%Z then Hold1
  else if (phase =? 2)%Z then Exhale
  else Hold2.




(** One look at the exercise: the branch taken ([None] once the loop has
    been left), the value handed to the progress bar, and whether the
    loop has been left. *)
Record Sample : Type := mkSample {
  phaseLabel : option PhaseLabel;
  progressPercent : Z;
  isComplete : bool
}.


(** The loop test of line 226. *)
Definition running (t0 now : Q) : bool :=
  match elapsed t0 now ?= total_seconds with
  | Lt => true
  | _ => false
  end.

(** The loop body, lines 228-238, at elapsed time [e]. *)
Definition tick (e : Q) : Sample :=
  mkSample (Some (branch (phase e))) (progress_arg e) false.

(** Lines 240-241, after the loop. *)
Definition finished : Sample := mkSample None 100 true.

(** The state computed from one clock reading [now] of a session
    started at [t0], as the specification's [sample(handle, now)]: the
    computations of one turn while the test holds, the final state after
    it.  The loop itself reads the clock twice in a turn and hands the
    progress to the progress bar, which may refuse it, before it shows
    the phase: that is [breathing] below. *)
Definition sample (t0 now : Q) : Sample :=
  if running t0 now then tick (elapsed t0 now) else finished.

(** *** The progress bar *)

(** [prog.progress(v)] with an [int]: Streamlit accepts 0..100 and raises
    [StreamlitAPIException] for any other value. *)
Inductive exn : Type := StreamlitAPIException.

Inductive result (A : Type) : Type :=
| Ok (a : A)
| Raise (e : exn).

Arguments Ok {A} a.
Arguments Raise {A} e.

Definition prog_progress (v : Z) : result Z :=
  if ((0 <=? v) && (v <=? 100))%Z then Ok v else Raise StreamlitAPIException.

(** The whole loop over the successive readings of [time.time()]: each
    turn takes one reading for the test and one for [elapsed]; [sleep]
    only spaces the readings.  The run stops at the first exception, and
    yields what it has shown when the readings are used up. *)
Fixpoint breathing (t0 : Q) (clock : list Q) : list Sample * option exn :=
  match clock with
  | [] => ([], None)
  | c_test :: rest =>
      if running t0 c_test then
        match rest with
        | [] => ([], None)
        | c_body :: rest' =>
            let s := tick (elapsed t0 c_body) in
            match prog_progress (progressPercent s) with
            | Raise e => ([], Some e)
            | Ok _ =>
                let (shown, err) := breathing t0 rest' in (s :: shown, err)
            end
        end
      else ([finished], None)
  end.

(** *** The formulas of the specification *)

(** phaseIndex = floor((elapsedSeconds mod 16) / 4), with the remainder
    taken in [0, 16). *)
Definition spec_phaseIndex (t : Q) : Z :=
  Qfloor ((t - 16 * inject_Z (Qfloor (t / 16))) / 4).


(** progressPercent = floor(min(elapsedSeconds, 60) / 60 * 100) *)
Definition spec_progressPercent (t : Q) : Z :=
  Qfloor (Qmin t 60 / 60 * 100).

End Breathing.

(** ** The local database (lines 12-62)

    The SQLite file is modelled by its two tables.  Of SQLite the model
    keeps what the five functions rely on: [CREATE TABLE IF NOT EXISTS],
    the keys of an [AUTOINCREMENT] column, [ORDER BY id DESC], [LIMIT],
    the error raised for a missing table and the one raised for a limit
    that does not fit a 64-bit integer.  Failures of the file system or
    of the connection are outside the model. *)

Module Db.
Local Open Scope string_scope.
Local Open Scope Z_scope.

(** A row of [moods]: [id], [mood], [note], [ts]. *)
Record mood_row : Type := mkMood {
  mood_id : Z;
  mood : string;
  note : string;
  mood_ts : string
}.

(** A row of [journals]: [id], [title], [entry], [ts]. *)
Record journal_row : Type := mkJournal {
  journal_id : Z;
  title : string;
  entry : string;
  journal_ts : string
}.

(** A table whose key is [INTEGER PRIMARY KEY AUTOINCREMENT]: its rows in
    the order of insertion, and the largest key handed out so far, which
    SQLite keeps in [sqlite_sequence]. *)
Record table (R : Type) : Type := mkTable {
  rows : list R;
  seq : Z
}.

Arguments mkTable {R} rows seq.
Arguments rows {R} t.
Arguments seq {R} t.

(** The file [youth_wellness.db]: each of the two tables is there or
    not. *)
Record database : Type := mkDb {
  moods : option (table mood_row);
  journals : option (table journal_row)
}.

(** What [sqlite3.connect] finds when the file does not exist yet. *)
Definition no_tables : database := mkDb None None.

(** A statement on a table that does not exist raises
    [sqlite3.OperationalError] when it is prepared; an [int] parameter
    outside the range of a 64-bit integer raises [OverflowError] when it
    is bound, which comes after. *)
Inductive db_exn : Type := OperationalError | OverflowError.

(** The range of an SQLite INTEGER. *)
Definition fits_int64 (n : Z) : bool :=
  ((- 9223372036854775808 <=? n) && (n <=? 9223372036854775807))%Z.

Inductive outcome (A : Type) : Type :=
| Done (a : A)
| Raised (e : db_exn).

Arguments Done {A} a.
Arguments Raised {A} e.

(** [CREATE TABLE IF NOT EXISTS] *)
Definition create_if_not_exists {R : Type} (t : option (table R))
  : option (table R) :=
  match t with
  | Some t => Some t
  | None => Some (mkTable [] 0)
  end.

(** Lines 14-30. *)
Definition init_db (d : database) : database :=
  mkDb (create_if_not_exists (moods d)) (create_if_not_exists (journals d)).

Definition max_key {R : Type} (key : R -> Z) (rs : list R) : Z :=
  fold_right (fun r m => Z.max (key r) m) 0 rs.

(** The key of an inserted row: one more than the largest key the table
    holds or has ever handed out. *)
Definition next_key {R : Type} (key : R -> Z) (t : table R) : Z :=
  Z.max (seq t) (max_key key (rows t)) + 1.

(** [INSERT INTO ... VALUES (...)], the row being built from its key. *)
Definition insert {R : Type} (key : R -> Z) (make : Z -> R) (t : table R)
  : table R :=
  let k := next_key key t in
  mkTable (rows t ++ [make k]) k.

(** [ORDER BY id DESC] *)
Fixpoint insert_desc {R : Type} (key : R -> Z) (r : R) (sorted : list R)
  : list R :=
  match sorted with
  | [] => [r]
  | x :: xs =>
      if key x <? key r then r :: sorted else x :: insert_desc key r xs
  end.

Definition order_by_desc {R : Type} (key : R -> Z) (rs : list R) : list R :=
  fold_right (insert_desc key) [] rs.

(** [LIMIT n]: a negative [n] means no limit. *)
Definition limit_rows {A : Type} (n : Z) (l : list A) : list A :=
  if n <? 0 then l else firstn (Z.to_nat n) l.

(** Lines 32-38; [ts] is [datetime.utcnow().isoformat()] at the call. *)
Definition save_mood (mood note ts : string) (d : database)
  : outcome database :=
  match moods d with
  | None => Raised OperationalError
  | Some t =>
      Done (mkDb (Some (insert mood_id (fun k => mkMood k mood note ts) t))
                 (journals d))
  end.

(** Lines 40-46: the pairs [(mood, ts)]. *)
Definition get_mood_stats (limit : Z) (d : database)
  : outcome (list (string * string)) :=
  match moods d with
  | None => Raised OperationalError
  | Some t =>
      if fits_int64 limit then
        Done (map (fun r => (mood r, mood_ts r))
                (limit_rows limit (order_by_desc mood_id (rows t))))
      else Raised OverflowError
  end.

(** Lines 48-54. *)
Definition save_journal (title entry ts : string) (d : database)
  : outcome database :=
  match journals d with
  | None => Raised OperationalError
  | Some t =>
      Done (mkDb (moods d)
                 (Some (insert journal_id
                          (fun k => mkJournal k title entry ts) t)))
  end.

(** Lines 56-62: the triples [(id, title, ts)]. *)
Definition get_journals (limit : Z) (d : database)
  : outcome (list (Z * string * string)) :=
  match journals d with
  | None => Raised OperationalError
  | Some t =>
      if fits_int64 limit then
        Done (map (fun r => (journal_id r, title r, journal_ts r))
                (limit_rows limit (order_by_desc journal_id (rows t))))
      else Raised OverflowError
  end.

(** The calls that change the file. *)
Inductive statement : Type :=
| call_init_db
| call_save_mood (mood note ts : string)
| call_save_journal (title entry ts : string).

Definition execute (s : statement) (d : database) : outcome database :=
  match s with
  | call_init_db => Done (init_db d)
  | call_save_mood m n ts => save_mood m n ts d
  | call_save_journal t e ts => save_journal t e ts d
  end.

(** A run of calls, stopping at the first exception. *)
Fixpoint execute_all (ss : list statement) (d : database)
  : outcome database :=
  match ss with
  | [] => Done d
  | s :: ss' =>
      match execute s d with
      | Done d' => execute_all ss' d'
      | Raised e => Raised e
      end
  end.

(** Keys are positive, grow along the rows, and none exceeds [seq]. *)
Definition keys_in_order {R : Type} (key : R -> Z) (t : table R) : Prop :=
  StronglySorted Z.lt (map key (rows t))
  /\ Forall (fun k => 0 < k <= seq t) (map key (rows t)).

Definition well_formed (d : database) : Prop :=
  exists tm tj,
    moods d = Some tm /\ journals d = Some tj
    /\ keys_in_order mood_id tm /\ keys_in_order journal_id tj.

(** The database with every journal body blanked out. *)
Definition erase_entries (d : database) : database :=
  mkDb (moods d)
       (option_map
          (fun t =>
             mkTable
               (map (fun r =>
                       mkJournal (journal_id r) (title r) EmptyString
                         (journal_ts r))
                  (rows t))
               (seq t))
          (journals d)).

(** How many of the calls are [save_journal] calls. *)
Definition journal_saves (ss : list statement) : nat :=
  List.length
    (filter (fun s => match s with call_save_journal _ _ _ => true
                               | _ => false end) ss).

Definition mood_saves (ss : list statement) : nat :=
  List.length
    (filter (fun s => match s with call_save_mood _ _ _ => true
                               | _ => false end) ss).

(** The keys 1, 2, ..., n. *)
Definition first_keys (n : nat) : list Z := map Z.of_nat (List.seq 1 n).

(** The rows carry the keys 1, 2, ..., n, and n is the last key handed
    out. *)
Definition numbered {R : Type} (key : R -> Z) (t : table R) : Prop :=
  map key (rows t) = first_keys (List.length (rows t))
  /\ seq t = Z.of_nat (List.length (rows t)).

(** A small database for examples: one mood and one journal entry. *)
Definition demo_moods : table mood_row :=
  mkTable [mkMood 1 "Happy" "" "2024-05-01T09:00:00.000001"] 1.

Definition demo_journals : table journal_row :=
  mkTable [mkJournal 1 "Untitled" "first" "2024-05-01T09:05:00.000001"] 1.

Definition demo_db : database := mkDb (Some demo_moods) (Some demo_journals).

Definition demo_calls : list statement :=
  [call_save_mood "Sad" "long day" "2024-05-02T21:30:00.000001";
   call_init_db;
   call_save_journal "Notes" "second" "2024-05-02T21:31:00.000001"].

Definition demo_db_later : database :=
  mkDb
    (Some (mkTable
             [mkMood 1 "Happy" "" "2024-05-01T09:00:00.000001";
              mkMood 2 "Sad" "long day" "2024-05-02T21:30:00.000001"] 2))
    (Some (mkTable
             [mkJournal 1 "Untitled" "first" "2024-05-01T09:05:00.000001";
              mkJournal 2 "Notes" "second" "2024-05-02T21:31:00.000001"] 2)).

End Db.

(** ** The pages that use the database (lines 99, 131-148, 243-251,
       263-280) *)

Module Pages.
Import PyStr Db.
Local Open Scope string_scope.

(** Streamlit calls that put text on the page; the input widgets
    ([st.radio], [st.text_area], [st.text_input], [st.button]) show no
    text of their own and are the arguments of the page functions. *)
Inductive widget : Type :=
| w_header (body : string)
| w_subheader (body : string)
| w_success (body : string)
| w_warning (body : string)
| w_write (body : string).

(** What a run of the script acts on: the page and the database file. *)
Record world : Type := mkWorld {
  shown : list widget;
  file : database
}.

(** A state monad over [world] in which a database call may raise. *)
Definition Script (A : Type) : Type := world -> outcome (A * world).

Definition ret {A : Type} (a : A) : Script A := fun w => Done (a, w).

Definition bind {A B : Type} (m : Script A) (k : A -> Script B) : Script B :=
  fun w =>
    match m w with
    | Done (a, w') => k a w'
    | Raised e => Raised e
    end.

Notation "x <- m ;; k" := (bind m (fun x => k))
  (at level 61, m at next level, right associativity).
Notation "m ;; k" := (bind m (fun _ => k))
  (at level 61, right associativity).

Definition show (x : widget) : Script unit :=
  fun w => Done (tt, mkWorld (shown w ++ [x]) (file w)).

(** A call that changes the file. *)
Definition update (f : database -> outcome database) : Script unit :=
  fun w =>
    match f (file w) with
    | Done d => Done (tt, mkWorld (shown w) d)
    | Raised e => Raised e
    end.

(** A call that reads the file. *)
Definition query {A : Type} (f : database -> outcome A) : Script A :=
  fun w =>
    match f (file w) with
    | Done a => Done (a, w)
    | Raised e => Raised e
    end.

Fixpoint for_each {A : Type} (xs : list A) (body : A -> Script unit)
  : Script unit :=
  match xs with
  | [] => ret tt
  | x :: xs' => body x ;; for_each xs' body
  end.

Definition when (b : bool) (m : Script unit) : Script unit :=
  if b then m else ret tt.

(** [s[:n]] *)
Fixpoint slice_to (n : nat) (s : string) : string :=
  match n, s with
  | O, _ => EmptyString
  | S _, EmptyString => EmptyString
  | S n', String c s' => String c (slice_to n' s')
  end.

(** [str(k)] for an [int]. *)
Definition str_of_int (k : Z) : string :=
  NilZero.string_of_int (Z.to_int k).

(** The options of the radio button (line 136). *)
Definition MOODS : list string :=
  ["😊 Happy"; "😔 Sad"; "😰 Stressed"; "😡 Angry"; "😐 Neutral"].

(** The f-string of line 146. *)
Definition mood_line (r : string * string) : string :=
  "- *" ++ fst r ++ "*  — " ++ slice_to 19 (snd r) ++ " UTC".

(** The f-string of line 278. *)
Definition journal_line (r : Z * string * string) : string :=
  "- *" ++ snd (fst r) ++ "*  — " ++ slice_to 19 (snd r)
  ++ " UTC  (id: " ++ str_of_int (fst (fst r)) ++ ")".

(** Lines 131-148; [now] is [datetime.utcnow().isoformat()]. *)
Definition mood_page (mood note : string) (log_mood : bool) (now : string)
  : Script unit :=
  show (w_header "🧠 Mood Check-In") ;;
  when log_mood
    (update (save_mood mood note now) ;;
     show (w_success
             "Thanks — your mood was logged locally. It's okay to feel this way.")) ;;
  show (w_subheader "Recent check-ins") ;;
  rows <- query (get_mood_stats 8) ;;
  match rows with
  | [] => show (w_write "No mood entries yet. Try logging one!")
  | _ :: _ => for_each rows (fun r => show (w_write (mood_line r)))
  end.


(** Lines 263-280. *)
Definition journals_page (title entry : string) (save_entry : bool)
           (now : string) : Script unit :=
  show (w_header "📓 Journals") ;;
  show (w_subheader "Create a journal entry") ;;
  when save_entry
    (if negb (is_empty (strip entry)) then
       update (save_journal
                 (if negb (is_empty (strip title)) then title
                  else "Untitled")
                 (strip entry) now) ;;
       show (w_success "Journal saved locally.")
     else
       show (w_warning "Write something before saving.")) ;;
  show (w_subheader "Recent entries") ;;
  rows <- query (get_journals 8) ;;
  match rows with
  | [] => show (w_write "No journal entries yet.")
  | _ :: _ => for_each rows (fun r => show (w_write (journal_line r)))
  end.

(** What lines 144-148 and 276-280 put on the page for the rows found. *)
Definition mood_listing (rows : list (string * string)) : list widget :=
  match rows with
  | [] => [w_write "No mood entries yet. Try logging one!"]
  | _ :: _ => map (fun r => w_write (mood_line r)) rows
  end.

Definition journal_listing (rows : list (Z * string * string))
  : list widget :=
  match rows with
  | [] => [w_write "No journal entries yet."]
  | _ :: _ => map (fun r => w_write (journal_line r)) rows
  end.

(** One run of the script on a page: [init_db()] of line 99, then the
    page; the title and the side bar of lines 100-106, which every page
    shares, are left out of the screen. *)
Definition run (body : Script unit) (d : database) : outcome (unit * world) :=
  body (mkWorld [] (init_db d)).

End Pages.

(** ** The conversation shown under the chat box (lines 190-197) *)

Module ChatView.
Import PyStr Chat.
Local Open Scope string_scope.

Inductive view : Type :=
| v_subheader (body : string)
| v_markdown (body : string).

(** [l[-n:]] for a positive [n]: the last [n] items, or all of them. *)
Definition last_n {A : Type} (n : nat) (l : list A) : list A :=
  skipn (List.length l - n) l.

(** The body of the loop of lines 193-197. *)
Definition bubble (item : string * string) : view :=
  let (speaker, text) := item in
  if String.eqb speaker "You" then v_markdown ("*You:* " ++ text)
  else v_markdown ("*AI:* " ++ text).

(** Lines 191-197. *)
Definition conversation (chat_history : list (string * string))
  : list view :=
  match chat_history with
  | [] => []
  | _ :: _ =>
      v_subheader "Conversation" :: map bubble (last_n 10 chat_history)
  end.

(** A session: the messages sent one after the other, each with the
    text the model generates on that run. *)
Fixpoint send_all (sends : list (string * (string -> string))) (p : page)
  : page :=
  match sends with
  | [] => p
  | (user_input, generated_text) :: rest =>
      send_all rest (snd (on_send generated_text user_input p))
  end.

(** The exchanges of a session: each message that is not blank, with the
    reply stored for it. *)
Definition exchanges (sends : list (string * (string -> string)))
  : list (string * string) :=
  flat_map
    (fun s : string * (string -> string) =>
       let (m, g) := s in
       if blank m then [] else [(m, reply_of g m)])
    sends.

Definition entries (x : string * string) : list (string * string) :=
  [("You", fst x); ("AI", snd x)].

Definition bubbles (x : string * string) : list view :=
  [v_markdown ("*You:* " ++ fst x); v_markdown ("*AI:* " ++ snd x)].

End ChatView.

(** ** Clocks for a run of the breathing loop *)

Module BreathingRun.
Local Open Scope Q_scope.

(** In every turn the reading of line 228 is not before the start of the
    session and is less than 0.6 seconds after the reading of line 226. *)
Fixpoint steady (t0 : Q) (clock : list Q) : Prop :=
  match clock with
  | c_test :: c_body :: rest =>
      t0 <= c_body /\ c_body < c_test + (3 # 5) /\ steady t0 rest
  | _ => True
  end.

(** [time.sleep(1)]: the test of a turn reads the clock at least one
    second after the test of the turn before. *)
Fixpoint paced (clock : list Q) : Prop :=
  match clock with
  | c_test :: _ :: rest =>
      match rest with
      | c_next :: _ => c_test + 1 <= c_next
      | [] => True
      end
      /\ paced rest
  | _ => True
  end.

(** The first reading is not before the start of the session. *)
Definition starts_after (t0 : Q) (clock : list Q) : Prop :=
  match clock with
  | c :: _ => t0 <= c
  | [] => True
  end.

End BreathingRun.

(** * Properties *)

(** ** Strings *)

Section StringFacts.
Import PyStr.
Local Open Scope string_scope.

Lemma starts_with_spec (k s : string) :
  starts_with k s = true <-> exists post, s = k ++ post.
Proof.
  revert s; induction k as [|a k IH]; intros s; simpl.
  - split; [intros _; now exists s | reflexivity].
  - destruct s as [|b s].
    + split; [discriminate | intros [post H]; discriminate].
    + rewrite andb_true_iff, Ascii.eqb_eq, IH. split.
      * intros [-> [post ->]]. now exists post.
      * intros [post H]. injection H as -> ->. split; [reflexivity | now exists post].
Qed.

Lemma contains_spec (k s : string) :
  contains k s = true <-> occurs_in k s.
Proof.
  unfold occurs_in. induction s as [|c s IH].
  - simpl. rewrite orb_false_r, starts_with_spec. split.
    + intros [post H]. now exists "", post.
    + intros [pre [post H]]. destruct pre; [now exists post | discriminate].
  - change (contains k (String c s))
      with (starts_with k (String c s) || contains k s).
    rewrite orb_true_iff, starts_with_spec, IH. split.
    + intros [[post H] | [pre [post H]]].
      * now exists "", post.
      * exists (String c pre), post. simpl. now rewrite H.
    + intros [[|c' pre] [post H]].
      * left. now exists post.
      * right. injection H as _ H. now exists pre, post.
Qed.

Lemma contains_false_spec (k s : string) :
  contains k s = false <-> ~ occurs_in k s.
Proof.
  rewrite <- contains_spec. destruct (contains k s); split; congruence.
Qed.

Lemma lower_app (a b : string) : lower (a ++ b) = lower a ++ lower b.
Proof. induction a as [|c a IH]; simpl; [reflexivity | now rewrite IH]. Qed.

Lemma is_space_lower_char (c : ascii) : is_space (lower_char c) = is_space c.
Proof. destruct c as [[] [] [] [] [] [] [] []]; reflexivity. Qed.

Lemma blank_lower (s : string) : blank (lower s) = blank s.
Proof.
  induction s as [|c s IH]; simpl; [reflexivity|].
  now rewrite is_space_lower_char, IH.
Qed.

Lemma blank_app (a b : string) : blank (a ++ b) = blank a && blank b.
Proof.
  induction a as [|c a IH]; simpl; [reflexivity|].
  now rewrite IH, andb_assoc.
Qed.

(** A blank string has only blank substrings. *)
Lemma blank_occurs (k s : string) :
  occurs_in k s -> blank s = true -> blank k = true.
Proof.
  intros [pre [post ->]]. rewrite !blank_app, !andb_true_iff. tauto.
Qed.

Lemma rstrip_blank (s : string) : is_empty (rstrip s) = blank s.
Proof.
  induction s as [|c s IH]; simpl; [reflexivity|].
  rewrite IH. destruct (is_space c), (blank s); reflexivity.
Qed.

Lemma blank_lstrip (s : string) : blank (lstrip s) = blank s.
Proof.
  induction s as [|c s IH]; simpl; [reflexivity|].
  destruct (is_space c) eqn:E; simpl; [exact IH | now rewrite E].
Qed.

(** The test [not s.strip()] holds exactly for the strings made of white
    space only. *)
Lemma strip_empty_blank (s : string) : is_empty (strip s) = blank s.
Proof. unfold strip. now rewrite rstrip_blank, blank_lstrip. Qed.

End StringFacts.

(** ** The crisis check *)

Section CrisisFacts.
Import PyStr Crisis.
Local Open Scope string_scope.

Lemma crisis_check_true_iff (m : string) :
  crisis_check m = true <->
  exists k, In k CRISIS_KEYWORDS /\ occurs_in k (lower m).
Proof.
  unfold crisis_check. rewrite existsb_exists.
  split; intros [k [Hin Hk]]; exists k; split; trivial;
    now apply contains_spec.
Qed.

Lemma matchedTerms_spec_In (m k : string) :
  In k (matchedTerms_spec m) <->
  In k CRISIS_KEYWORDS /\ occurs_in k (lower m).
Proof.
  unfold matchedTerms_spec. now rewrite filter_In, contains_spec.
Qed.

(** The flag is the non-emptiness of the specification's list. *)
Lemma crisis_check_matchedTerms (m : string) :
  crisis_check m = true <-> matchedTerms_spec m <> [].
Proof.
  rewrite crisis_check_true_iff. split.
  - intros [k Hk] E. apply matchedTerms_spec_In in Hk. now rewrite E in Hk.
  - destruct (matchedTerms_spec m) as [|k l] eqn:E; [congruence|].
    intros _. exists k. apply matchedTerms_spec_In. rewrite E. now left.
Qed.

(** No keyword is made of white space only. *)
Lemma keywords_not_blank :
  forallb (fun k => negb (blank k)) CRISIS_KEYWORDS = true.
Proof. reflexivity. Qed.

Lemma blank_no_keyword (s k : string) :
  blank s = true -> In k CRISIS_KEYWORDS -> contains k (lower s) = false.
Proof.
  intros Hs Hk. apply contains_false_spec. intros Hocc.
  apply blank_occurs in Hocc; [|now rewrite blank_lower].
  pose proof keywords_not_blank as H. rewrite forallb_forall in H.
  specialize (H k Hk). now rewrite Hocc in H.
Qed.

Lemma blank_not_flagged (s : string) :
  blank s = true -> crisis_check s = false.
Proof.
  intros Hs. destruct (crisis_check s) eqn:E; [|reflexivity].
  apply crisis_check_true_iff in E. destruct E as [k [Hin Hocc]].
  apply contains_spec in Hocc. now rewrite (blank_no_keyword s k Hs Hin) in Hocc.
Qed.

(** A flagged message passes the test of line 164. *)
Lemma flagged_not_blank (m : string) :
  crisis_check m = true -> is_empty (strip m) = false.
Proof.
  intros H. rewrite strip_empty_blank.
  destruct (blank m) eqn:E; [|reflexivity].
  now rewrite (blank_not_flagged m E) in H.
Qed.

(** C1. For every message, the crisis check is true exactly when some
    keyword of [CRISIS_KEYWORDS] (which is the list of the seven phrases
    "suicide", "kill myself", "want to die", "die", "hopeless",
    "worthless", "end my life") occurs as a contiguous substring of the
    lower-cased message; a message whose lower-cased text contains no
    keyword is not flagged. *)
Theorem crisis_check_iff_keyword_occurs :
  CRISIS_KEYWORDS =
    ["suicide"; "kill myself"; "want to die"; "die"; "hopeless";
     "worthless"; "end my life"] /\
  forall m : string,
    (crisis_check m = true <->
     exists k pre post,
       In k CRISIS_KEYWORDS /\ lower m = pre ++ k ++ post) /\
    ((forall k, In k CRISIS_KEYWORDS -> ~ occurs_in k (lower m)) ->
     crisis_check m = false).
Proof.
  split; [reflexivity|]. intros m. split.
  - rewrite crisis_check_true_iff. unfold occurs_in. split.
    + intros [k [Hin [pre [post H]]]]. now exists k, pre, post.
    + intros [k [pre [post [Hin H]]]]. exists k. split; [exact Hin|].
      now exists pre, post.
  - intros Hno. destruct (crisis_check m) eqn:E; [|reflexivity].
    apply crisis_check_true_iff in E. destruct E as [k [Hin Hocc]].
    now destruct (Hno k Hin).
Qed.

Lemma crisis_check_iff_keyword_occurs_witness :
  (forall k, In k CRISIS_KEYWORDS ->
             ~ occurs_in k (lower "A long DAY at school")) /\
  crisis_check "A long DAY at school" = false.
Proof.
  assert (H : forall k, In k CRISIS_KEYWORDS ->
                        ~ occurs_in k (lower "A long DAY at school")).
  { intros k Hin. apply contains_false_spec.
    simpl in Hin.
    repeat (destruct Hin as [<- | Hin]; [reflexivity|]). destruct Hin. }
  split; [exact H|].
  exact (proj2 (proj2 crisis_check_iff_keyword_occurs "A long DAY at school") H).
Defined.

(** C2, what fails.  The check yields a boolean and nothing else: the
    messages "suicide" and "hopeless" give the same result although
    different keywords occur in them, so no reading of the result lists
    the keywords that matched. *)
Lemma matched_terms_absent_from_result :
  ~ exists terms_of : bool -> list string,
      terms_of (crisis_check "suicide") = matchedTerms_spec "suicide" /\
      terms_of (crisis_check "hopeless") = matchedTerms_spec "hopeless".
Proof.
  intros [terms_of [H1 H2]].
  change (crisis_check "suicide") with true in H1.
  change (crisis_check "hopeless") with true in H2.
  rewrite H1 in H2. discriminate H2.
Qed.

(** C2, amended.  The check returns only the flag, and the flag covers
    every keyword that occurs: a message is flagged exactly when the list
    of keywords occurring in its lower-cased text is not empty;
    "I want to die" is flagged, and both "die" and "want to die" occur in
    it; and for every keyword K, a message that embeds K in any case
    (any K' whose lower case is K, between any two texts) is flagged. *)
Theorem flag_covers_every_occurring_keyword :
  (forall m, crisis_check m = true <-> matchedTerms_spec m <> []) /\
  (crisis_check "I want to die" = true /\
   contains "die" (lower "I want to die") = true /\
   contains "want to die" (lower "I want to die") = true) /\
  (forall K K' pre post,
      In K CRISIS_KEYWORDS -> lower K' = K ->
      crisis_check (pre ++ K' ++ post) = true).
Proof.
  split; [exact crisis_check_matchedTerms|].
  split; [repeat split|].
  intros K K' pre post Hin Hlow. apply crisis_check_true_iff.
  exists K. split; [exact Hin|].
  exists (lower pre), (lower post). now rewrite !lower_app, Hlow.
Qed.

Lemma flag_covers_every_occurring_keyword_witness :
  In "hopeless" CRISIS_KEYWORDS /\ lower "HOPELESS" = "hopeless" /\
  crisis_check ("I feel " ++ "HOPELESS" ++ " today") = true.
Proof.
  assert (Hin : In "hopeless" CRISIS_KEYWORDS) by (simpl; tauto).
  assert (Hlow : lower "HOPELESS" = "hopeless") by reflexivity.
  split; [exact Hin|]. split; [exact Hlow|].
  exact (proj2 (proj2 flag_covers_every_occurring_keyword)
           "hopeless" "HOPELESS" "I feel " " today" Hin Hlow).
Defined.

End CrisisFacts.

(** ** The chat page *)

Section ChatFacts.
Import PyStr Crisis Chat.
Local Open Scope string_scope.

Variable generated_text : string -> string.

(** The banner is the error text, one line per entry of [HELPLINES] in
    the order of the table, and the closing line. *)
Lemma crisis_banner_unfold :
  crisis_banner =
  st_error crisis_message
  :: map (fun '(name, num) => st_write (name ++ "** — " ++ num)) HELPLINES
  ++ [st_write danger_message].
Proof. reflexivity. Qed.

(** White-space-only input: the warning, and nothing else. *)
Lemma on_send_blank (m : string) (p : page) :
  blank m = true ->
  on_send generated_text m p =
  (tt, mkPage (screen p ++ [please_type]) (prompts p) (chat_history p)).
Proof.
  intros H. unfold on_send. now rewrite strip_empty_blank, H.
Qed.

(** Any other input: the banner when flagged, then the model call and the
    two history entries. *)
Lemma on_send_not_blank (m : string) (p : page) :
  blank m = false ->
  on_send generated_text m p =
  (tt, mkPage
         (screen p ++ (if crisis_check m then crisis_banner else [])
          ++ [thinking])
         (prompts p ++ [m])
         (chat_history p ++ [("You", m); ("AI", reply_of generated_text m)])).
Proof.
  intros H. unfold on_send. rewrite strip_empty_blank, H.
  fold (crisis_check m). fold (reply_of generated_text m).
  destruct (crisis_check m);
    cbv [when bind show for_each ret chat_model history_append HELPLINES
         helpline_line screen prompts chat_history crisis_banner thinking];
    rewrite <- ?app_assoc; reflexivity.
Qed.

Lemma on_send_no_crisis_branch_not_blank (m : string) (p : page) :
  blank m = false ->
  on_send_no_crisis_branch generated_text m p =
  (tt, mkPage
         (screen p ++ [thinking])
         (prompts p ++ [m])
         (chat_history p ++ [("You", m); ("AI", reply_of generated_text m)])).
Proof.
  intros H. unfold on_send_no_crisis_branch. rewrite strip_empty_blank, H.
  fold (reply_of generated_text m).
  cbv [bind show chat_model history_append screen prompts chat_history
       thinking].
  rewrite <- ?app_assoc. reflexivity.
Qed.

(** C7. The crisis check of the empty string is false and no keyword
    matches it; every input made of white space only is likewise not
    flagged, no keyword matches it, and pressing "Send" on it shows the
    "please type something" warning and nothing else: no banner, no call
    of the model, no change of the history. *)
Theorem empty_or_blank_not_flagged :
  (crisis_check "" = false /\ matchedTerms_spec "" = []) /\
  (forall s : string,
      blank s = true ->
      crisis_check s = false /\
      matchedTerms_spec s = [] /\
      forall p : page,
        snd (on_send generated_text s p) =
        mkPage (screen p ++ [please_type]) (prompts p) (chat_history p)).
Proof.
  split; [split; reflexivity|].
  intros s Hs. pose proof (blank_not_flagged s Hs) as Hf.
  split; [exact Hf|]. split.
  - destruct (matchedTerms_spec s) eqn:E; [reflexivity|].
    assert (crisis_check s = true) by (apply crisis_check_matchedTerms; congruence).
    congruence.
  - intros p. now rewrite (on_send_blank s p Hs).
Qed.

(** C9. Whenever a message is flagged, pressing "Send" puts on the page
    the fixed safety message, then exactly the four helpline entries of
    the table, each as its label with its contact string, then the fixed
    closing line, before the model is called. *)
Theorem flagged_shows_helplines :
  HELPLINES =
    [("India (NIMHANS)", "080-4611-0007");
     ("iCall India", "+91 9152987821");
     ("US (988)", "988");
     ("International (if available)",
      "Contact local emergency services / national lifeline")] /\
  forall (m : string) (p : page),
    crisis_check m = true ->
    screen (snd (on_send generated_text m p)) =
    (screen p
     ++ (st_error crisis_message
         :: map (fun '(name, num) => st_write (name ++ "** — " ++ num)%string)
              HELPLINES
         ++ [st_write danger_message])
     ++ [thinking])%list.
Proof.
  split; [reflexivity|]. intros m p Hf.
  pose proof (flagged_not_blank m Hf) as Hb. rewrite strip_empty_blank in Hb.
  rewrite (on_send_not_blank m p Hb), Hf. reflexivity.
Qed.

(** C10. For every message that passes the emptiness test of line 164,
    flagged or not, the message is handed to the model once and the pair
    of history entries (the user's text, then the reply) is appended,
    exactly as the handler without the crisis branch does; the crisis
    branch only adds the banner to the page. *)
Theorem flagging_keeps_chat_effects :
  forall (m : string) (p : page),
    is_empty (strip m) = false ->
    let after := snd (on_send generated_text m p) in
    let plain := snd (on_send_no_crisis_branch generated_text m p) in
    prompts after = (prompts p ++ [m])%list /\
    chat_history after =
      (chat_history p
       ++ [("You", m); ("AI", reply_of generated_text m)])%list /\
    prompts after = prompts plain /\
    chat_history after = chat_history plain /\
    screen plain = (screen p ++ [thinking])%list /\
    screen after =
      (screen p ++ (if crisis_check m then crisis_banner else [])
       ++ [thinking])%list.
Proof.
  intros m p Hb. rewrite strip_empty_blank in Hb.
  cbv zeta.
  rewrite (on_send_not_blank m p Hb), (on_send_no_crisis_branch_not_blank m p Hb).
  simpl. repeat split; reflexivity.
Qed.

End ChatFacts.

Section ChatWitnesses.
Import PyStr Crisis Chat.
Local Open Scope string_scope.

Lemma empty_or_blank_not_flagged_witness :
  blank "   " = true /\
  crisis_check "   " = false /\
  snd (on_send echo_model "   " empty_page) = mkPage [please_type] [] [].
Proof.
  assert (H : blank "   " = true) by reflexivity.
  destruct (proj2 (empty_or_blank_not_flagged echo_model) "   " H)
    as [Hf [_ Hp]].
  split; [exact H|]. split; [exact Hf|]. exact (Hp empty_page).
Defined.

Lemma flagged_shows_helplines_witness :
  crisis_check "I feel HOPELESS today" = true /\
  screen (snd (on_send echo_model "I feel HOPELESS today" empty_page)) =
  (crisis_banner ++ [thinking])%list.
Proof.
  assert (H : crisis_check "I feel HOPELESS today" = true) by reflexivity.
  split; [exact H|].
  exact (proj2 (flagged_shows_helplines echo_model)
           "I feel HOPELESS today" empty_page H).
Defined.

Lemma flagging_keeps_chat_effects_witness :
  is_empty (strip "I feel HOPELESS today") = false /\
  prompts (snd (on_send echo_model "I feel HOPELESS today" empty_page)) =
    ["I feel HOPELESS today"] /\
  chat_history (snd (on_send echo_model "I feel HOPELESS today" empty_page)) =
    [("You", "I feel HOPELESS today"); ("AI", "I hear you.")].
Proof.
  assert (H : is_empty (strip "I feel HOPELESS today") = false) by reflexivity.
  destruct (flagging_keeps_chat_effects echo_model
              "I feel HOPELESS today" empty_page H) as [Hp [Hh _]].
  split; [exact H|]. split; [exact Hp | exact Hh].
Defined.

End ChatWitnesses.

(** Linear arithmetic over the rationals, after the divisions by the
    constants of the loop have been turned into products. *)
Ltac qlra :=
  unfold Breathing.elapsed, Breathing.total_seconds, Qdiv in *;
  change (/ 4) with (1 # 4) in *;
  change (/ 16) with (1 # 16) in *;
  change (/ 60) with (1 # 60) in *;
  change (inject_Z 1) with 1 in *;
  lra.


(** ** The breathing exercise *)

Section BreathingFacts.
Import Breathing.
Local Open Scope Q_scope.

Lemma py_int_nonneg (x : Q) : 0 <= x -> py_int x = Qfloor x.
Proof.
  destruct x as [n d]. unfold Qle, py_int, Qfloor. simpl. intros H.
  apply Z.quot_div_nonneg; lia.
Qed.

Lemma py_int_nonpos (x : Q) : x <= 0 -> py_int x = Qceiling x.
Proof.
  destruct x as [n d]. unfold Qle, py_int, Qceiling, Qfloor. simpl. intros H.
  replace n with (- - n)%Z at 1 by lia.
  rewrite Z.quot_opp_l by lia.
  f_equal. apply Z.quot_div_nonneg; lia.
Qed.

Lemma py_int_le (x y : Q) : x <= y -> (py_int x <= py_int y)%Z.
Proof.
  intros H. destruct (Qlt_le_dec x 0) as [Hx | Hx], (Qlt_le_dec y 0) as [Hy | Hy].
  - rewrite (py_int_nonpos x), (py_int_nonpos y) by lra.
    now apply Qceiling_resp_le.
  - rewrite (py_int_nonpos x), (py_int_nonneg y) by lra.
    transitivity 0%Z.
    + change 0%Z with (Qceiling 0). apply Qceiling_resp_le. lra.
    + change 0%Z with (Qfloor 0). now apply Qfloor_resp_le.
  - lra.
  - rewrite (py_int_nonneg x), (py_int_nonneg y) by lra.
    now apply Qfloor_resp_le.
Qed.


Lemma py_int_inject_Z (z : Z) : py_int (inject_Z z) = z.
Proof. unfold py_int. simpl. apply Z.quot_1_r. Qed.

Lemma Qfloor_bounds (x : Q) (z : Z) :
  inject_Z z <= x -> x < inject_Z z + 1 -> Qfloor x = z.
Proof.
  intros Hl Hu.
  pose proof (Qfloor_le x) as H1. pose proof (Qlt_floor x) as H2.
  rewrite inject_Z_plus in H2. change (inject_Z 1) with 1 in H2.
  assert (A : (z < Qfloor x + 1)%Z).
  { rewrite Zlt_Qlt, inject_Z_plus. change (inject_Z 1) with 1. lra. }
  assert (B : (Qfloor x < z + 1)%Z).
  { rewrite Zlt_Qlt, inject_Z_plus. change (inject_Z 1) with 1. lra. }
  lia.
Qed.


Lemma phase_spec (t : Q) : phase t = spec_phaseIndex t.
Proof. unfold phase, py_floordiv. apply py_int_inject_Z. Qed.





Lemma sample_running (t0 now : Q) :
  elapsed t0 now < total_seconds -> sample t0 now = tick (elapsed t0 now).
Proof.
  intros H. unfold sample, running. rewrite Qlt_alt in H. now rewrite H.
Qed.

Lemma sample_finished (t0 now : Q) :
  total_seconds <= elapsed t0 now -> sample t0 now = finished.
Proof.
  intros H. unfold sample, running.
  destruct (elapsed t0 now ?= total_seconds) eqn:E; try reflexivity.
  rewrite <- Qlt_alt in E. qlra.
Qed.






Lemma progress_arg_range (e : Q) :
  0 <= e -> e < total_seconds -> (0 <= progress_arg e <= 99)%Z.
Proof.
  intros H0 H60. unfold progress_arg.
  rewrite py_int_nonneg by qlra. split.
  - change 0%Z with (Qfloor 0). apply Qfloor_resp_le. qlra.
  - assert (H : (Qfloor (e / total_seconds * 100) < 100)%Z).
    { rewrite Zlt_Qlt.
      apply Qle_lt_trans with (e / total_seconds * 100); [apply Qfloor_le|].
      change (inject_Z 100) with 100. qlra. }
    lia.
Qed.

Lemma progress_arg_negative (e : Q) :
  e < 0 ->
  progress_arg e = Qceiling (e / total_seconds * 100) /\
  (progress_arg e <= 0)%Z /\
  (progress_arg e = 0%Z <-> - (3 # 5) < e).
Proof.
  intros H. unfold progress_arg.
  rewrite py_int_nonpos by qlra.
  set (x := e / total_seconds * 100).
  assert (Hx : x == e * (5 # 3)) by (unfold x; qlra).
  split; [reflexivity|]. split.
  - change 0%Z with (Qceiling 0). apply Qceiling_resp_le. lra.
  - unfold Qceiling. split.
    + intros E. assert (F : Qfloor (- x) = 0%Z) by lia.
      pose proof (Qlt_floor (- x)) as G. rewrite F in G.
      change (inject_Z (0 + 1)) with 1 in G. lra.
    + intros G. rewrite (Qfloor_bounds (- x) 0); [reflexivity | |];
        change (inject_Z 0) with 0; lra.
Qed.



(** C5. Progress never goes back: of two looks at the same session, both
    before its 60 seconds are over, the later one shows at least the
    progress of the earlier one. *)
Theorem progress_monotone :
  forall t0 now1 now2 : Q,
    now1 < now2 -> now1 < t0 + 60 -> now2 < t0 + 60 ->
    (progressPercent (sample t0 now1) <= progressPercent (sample t0 now2))%Z.
Proof.
  intros t0 now1 now2 H12 H1 H2.
  rewrite (sample_running t0 now1), (sample_running t0 now2) by qlra.
  simpl. unfold progress_arg. apply py_int_le. qlra.
Qed.

Lemma progress_monotone_witness :
  103 < 130 /\ 103 < 100 + 60 /\ 130 < 100 + 60 /\
  (progressPercent (sample 100 103) <= progressPercent (sample 100 130))%Z.
Proof.
  assert (H12 : 103 < 130) by reflexivity.
  assert (H1 : 103 < 100 + 60) by reflexivity.
  assert (H2 : 130 < 100 + 60) by reflexivity.
  repeat split; try assumption.
  exact (progress_monotone 100 103 130 H12 H1 H2).
Defined.

End BreathingFacts.

(** ** The local database *)

Section DbFacts.
Import Db.
Local Open Scope string_scope.
Local Open Scope Z_scope.

Variable R : Type.
Variable key : R -> Z.

Lemma max_key_bound (rs : list R) :
  0 <= max_key key rs /\ Forall (fun r => key r <= max_key key rs) rs.
Proof.
  induction rs as [|r rs [IH0 IH]]; simpl.
  - split; [lia | constructor].
  - split; [lia|]. constructor; [lia|].
    eapply Forall_impl; [|exact IH]. simpl. intros; lia.
Qed.

Lemma sorted_snoc (l : list Z) (k : Z) :
  StronglySorted Z.lt l -> Forall (fun x => x < k) l ->
  StronglySorted Z.lt (l ++ [k])%list.
Proof.
  induction 1 as [|x l Hs IH Hx]; intros Hk; simpl.
  - repeat constructor.
  - inversion Hk as [|? ? Hxk Hl]; subst.
    constructor; [now apply IH|].
    apply Forall_app. split; [exact Hx | now repeat constructor].
Qed.

(** An insertion keeps the keys in order and gives the new row a key
    above every other. *)
Lemma insert_keys_in_order (make : Z -> R) (t : table R) :
  (forall k, key (make k) = k) ->
  keys_in_order key t -> keys_in_order key (insert key make t).
Proof.
  intros Hmake [Hs Hb]. unfold insert, keys_in_order, next_key. simpl.
  destruct (max_key_bound (rows t)) as [M0 M].
  rewrite map_app. simpl. rewrite Hmake.
  rewrite Forall_map in Hb.
  split.
  - apply sorted_snoc; [exact Hs|]. rewrite Forall_map.
    eapply Forall_impl; [|exact M]. simpl. intros; lia.
  - apply Forall_app. split.
    + rewrite Forall_map. eapply Forall_impl; [|exact Hb]. simpl. intros; lia.
    + repeat constructor; lia.
Qed.

Lemma insert_desc_below (r : R) (l : list R) :
  Forall (fun x => key r < key x) l -> insert_desc key r l = (l ++ [r])%list.
Proof.
  induction 1 as [|x l Hx _ IH]; simpl; [reflexivity|].
  replace (key x <? key r) with false by (symmetry; apply Z.ltb_ge; lia).
  now rewrite IH.
Qed.

(** On keys that grow along the rows, [ORDER BY id DESC] is the rows in
    reverse. *)
Lemma order_by_desc_rev (rs : list R) :
  StronglySorted Z.lt (map key rs) -> order_by_desc key rs = rev rs.
Proof.
  induction rs as [|r rs IH]; simpl; intros H; [reflexivity|].
  inversion H as [|? ? Hs Hr]; subst.
  unfold order_by_desc in *. simpl. rewrite (IH Hs).
  apply insert_desc_below. apply Forall_rev.
  now rewrite Forall_map in Hr.
Qed.

Lemma order_by_desc_map (f : R -> R) (rs : list R) :
  (forall r, key (f r) = key r) ->
  order_by_desc key (map f rs) = map f (order_by_desc key rs).
Proof.
  intros Hf. unfold order_by_desc.
  induction rs as [|r rs IH]; simpl; [reflexivity|].
  rewrite IH. generalize (fold_right (insert_desc key) [] rs) as l.
  induction l as [|x l IHl]; simpl; [reflexivity|].
  rewrite !Hf. destruct (key x <? key r); simpl; [reflexivity|].
  now rewrite IHl.
Qed.

Lemma limit_rows_map (A B : Type) (f : A -> B) (n : Z) (l : list A) :
  limit_rows n (map f l) = map f (limit_rows n l).
Proof.
  unfold limit_rows. destruct (n <? 0); [reflexivity|].
  apply firstn_map.
Qed.

Lemma limit_rows_length (A : Type) (n : Z) (l : list A) :
  0 <= n ->
  Z.of_nat (List.length (limit_rows n l)) = Z.min n (Z.of_nat (List.length l)).
Proof.
  intros H. unfold limit_rows.
  replace (n <? 0) with false by (symmetry; apply Z.ltb_ge; lia).
  rewrite length_firstn. lia.
Qed.


End DbFacts.

Section DbTheorems.
Import Db.
Local Open Scope Z_scope.

Lemma init_db_tables (d : database) :
  exists tm tj, moods (init_db d) = Some tm /\ journals (init_db d) = Some tj.
Proof.
  unfold init_db. simpl.
  destruct (moods d) as [tm|], (journals d) as [tj|]; simpl; eauto.
Qed.

Lemma init_db_well_formed (d : database) :
  well_formed d -> init_db d = d.
Proof.
  intros [tm [tj [Hm [Hj _]]]]. unfold init_db. rewrite Hm, Hj.
  destruct d; simpl in *. now rewrite Hm, Hj.
Qed.

Lemma no_tables_init_well_formed : well_formed (init_db no_tables).
Proof.
  exists (mkTable [] 0), (mkTable [] 0).
  repeat split; simpl; constructor.
Qed.

Lemma execute_well_formed (s : statement) (d : database) :
  well_formed d -> exists d', execute s d = Done d' /\ well_formed d'.
Proof.
  intros W. pose proof W as [tm [tj [Hm [Hj [Km Kj]]]]].
  destruct s as [|m n ts|t e ts]; simpl.
  - exists d. now rewrite (init_db_well_formed d W).
  - unfold save_mood. rewrite Hm. eexists. split; [reflexivity|].
    exists (insert mood_id (fun k => mkMood k m n ts) tm), tj.
    simpl. repeat split; trivial; try apply Kj.
    + now apply insert_keys_in_order.
    + now apply insert_keys_in_order.
  - unfold save_journal. rewrite Hj. eexists. split; [reflexivity|].
    exists tm, (insert journal_id (fun k => mkJournal k t e ts) tj).
    simpl. repeat split; trivial; try apply Km.
    + now apply insert_keys_in_order.
    + now apply insert_keys_in_order.
Qed.

Lemma execute_all_well_formed (ss : list statement) (d : database) :
  well_formed d -> exists d', execute_all ss d = Done d' /\ well_formed d'.
Proof.
  revert d; induction ss as [|s ss IH]; intros d W; simpl.
  - now exists d.
  - destruct (execute_well_formed s d W) as [d1 [E W1]]. rewrite E.
    now apply IH.
Qed.


Lemma get_mood_stats_done (d : database) (t : table mood_row) (limit : Z) :
  moods d = Some t -> fits_int64 limit = true ->
  get_mood_stats limit d =
  Done (map (fun r => (mood r, mood_ts r))
          (limit_rows limit (order_by_desc mood_id (rows t)))).
Proof. intros H F. unfold get_mood_stats. now rewrite H, F. Qed.

Lemma get_journals_done (d : database) (t : table journal_row)
      (limit : Z) :
  journals d = Some t -> fits_int64 limit = true ->
  get_journals limit d =
  Done (map (fun r => (journal_id r, title r, journal_ts r))
          (limit_rows limit (order_by_desc journal_id (rows t)))).
Proof. intros H F. unfold get_journals. now rewrite H, F. Qed.

(** X1. On a database file that has no tables yet, both saves and both
    queries raise [OperationalError], whatever the limit; once [init_db]
    has run, which [main] does first, no sequence of [init_db],
    [save_mood] and [save_journal] calls raises, in each table the keys
    are positive and grow strictly in the order of insertion, and both
    queries answer for every limit that fits a 64-bit integer and raise
    [OverflowError] for every other limit. *)
Theorem init_db_makes_calls_safe :
  (forall (a b ts : string) (limit : Z),
      save_mood a b ts no_tables = Raised OperationalError /\
      save_journal a b ts no_tables = Raised OperationalError /\
      get_mood_stats limit no_tables = Raised OperationalError /\
      get_journals limit no_tables = Raised OperationalError) /\
  (forall ss : list statement,
      exists d',
        execute_all (call_init_db :: ss) no_tables = Done d' /\
        well_formed d' /\
        forall limit : Z,
          (fits_int64 limit = true ->
           exists ms js,
             get_mood_stats limit d' = Done ms /\
             get_journals limit d' = Done js) /\
          (fits_int64 limit = false ->
           get_mood_stats limit d' = Raised OverflowError /\
           get_journals limit d' = Raised OverflowError)).
Proof.
  split; [intros; repeat split|].
  intros ss. simpl.
  destruct (execute_all_well_formed ss _ no_tables_init_well_formed)
    as [d' [E W]].
  pose proof W as [tm [tj [Hm [Hj _]]]].
  exists d'. split; [exact E|]. split; [exact W|].
  intros limit. unfold get_mood_stats, get_journals. rewrite Hm, Hj.
  split; intros F; rewrite F; [eexists _, _|]; split; reflexivity.
Qed.

Lemma execute_rows_grow (s : statement) (d d' : database) :
  execute s d = Done d' ->
  (forall t, moods d = Some t ->
     exists t' extra, moods d' = Some t' /\ rows t' = (rows t ++ extra)%list) /\
  (forall t, journals d = Some t ->
     exists t' extra,
       journals d' = Some t' /\ rows t' = (rows t ++ extra)%list).
Proof.
  destruct s as [|m n ts|ti e ts]; simpl.
  - intros E. injection E as <-. unfold init_db. simpl.
    split; intros t ->; exists t, []; simpl; now rewrite app_nil_r.
  - unfold save_mood. destruct (moods d) as [tm|] eqn:Hm; [|discriminate].
    intros E. injection E as <-. simpl. split.
    + intros t Ht. injection Ht as <-. eexists _, _. split; reflexivity.
    + intros t ->. exists t, []. now rewrite app_nil_r.
  - unfold save_journal. destruct (journals d) as [tj|] eqn:Hj; [|discriminate].
    intros E. injection E as <-. simpl. split.
    + intros t ->. exists t, []. now rewrite app_nil_r.
    + intros t Ht. injection Ht as <-. eexists _, _. split; reflexivity.
Qed.

(** X2. The database is append-only: whatever calls are made, every row
    that was stored is still there afterwards, unchanged and in the same
    place, followed by the rows added since. *)
Theorem stored_rows_are_kept :
  forall (ss : list statement) (d d' : database),
    execute_all ss d = Done d' ->
    (forall t, moods d = Some t ->
       exists t' extra,
         moods d' = Some t' /\ rows t' = (rows t ++ extra)%list) /\
    (forall t, journals d = Some t ->
       exists t' extra,
         journals d' = Some t' /\ rows t' = (rows t ++ extra)%list).
Proof.
  induction ss as [|s ss IH]; intros d d' E; simpl in E.
  - injection E as <-. split; intros t ->; exists t, []; now rewrite app_nil_r.
  - destruct (execute s d) as [d1|] eqn:E1; [|discriminate].
    destruct (execute_rows_grow s d d1 E1) as [A1 B1].
    destruct (IH d1 d' E) as [A2 B2]. split; intros t Ht.
    + destruct (A1 t Ht) as [t1 [x1 [H1 R1]]].
      destruct (A2 t1 H1) as [t2 [x2 [H2 R2]]].
      exists t2, (x1 ++ x2)%list. split; [exact H2|].
      now rewrite R2, R1, app_assoc.
    + destruct (B1 t Ht) as [t1 [x1 [H1 R1]]].
      destruct (B2 t1 H1) as [t2 [x2 [H2 R2]]].
      exists t2, (x1 ++ x2)%list. split; [exact H2|].
      now rewrite R2, R1, app_assoc.
Qed.

Lemma newest_first (R : Type) (key : R -> Z) (A : Type) (f : R -> A)
      (limit : Z) (t : table R) :
  keys_in_order key t ->
  map f (limit_rows limit (order_by_desc key (rows t))) =
  limit_rows limit (map f (rev (rows t))).
Proof.
  intros [Hs _]. rewrite (order_by_desc_rev _ key (rows t) Hs).
  now rewrite limit_rows_map.
Qed.

(** X3. On a database whose keys are in order, for a limit that fits a
    64-bit integer, [get_mood_stats(limit)] answers with the [(mood, ts)]
    pairs of the most recently logged moods, newest first; for a limit
    that is not negative there are min(limit, number of stored moods) of
    them. *)
Theorem get_mood_stats_newest_first :
  forall (d : database) (t : table mood_row) (limit : Z),
    well_formed d -> moods d = Some t -> fits_int64 limit = true ->
    exists ms,
      get_mood_stats limit d = Done ms /\
      ms = limit_rows limit
             (map (fun r => (mood r, mood_ts r)) (rev (rows t))) /\
      (0 <= limit ->
       Z.of_nat (List.length ms) =
       Z.min limit (Z.of_nat (List.length (rows t)))).
Proof.
  intros d t limit [tm [tj [Hm [_ [Km _]]]]] Ht F.
  rewrite Hm in Ht. injection Ht as ->.
  rewrite (get_mood_stats_done d t limit Hm F).
  eexists. split; [reflexivity|].
  rewrite (newest_first _ mood_id _ _ limit t Km). split; [reflexivity|].
  intros H. rewrite limit_rows_length by exact H.
  now rewrite length_map, length_rev.
Qed.

(** X4. On a database whose keys are in order, for a limit that fits a
    64-bit integer, [get_journals(limit)]
    answers with the [(id, title, ts)] triples of the most recently saved
    journal entries, newest first; for a limit that is not negative there
    are min(limit, number of stored entries) of them. *)
Theorem get_journals_newest_first :
  forall (d : database) (t : table journal_row) (limit : Z),
    well_formed d -> journals d = Some t -> fits_int64 limit = true ->
    exists js,
      get_journals limit d = Done js /\
      js = limit_rows limit
             (map (fun r => (journal_id r, title r, journal_ts r))
                (rev (rows t))) /\
      (0 <= limit ->
       Z.of_nat (List.length js) =
       Z.min limit (Z.of_nat (List.length (rows t)))).
Proof.
  intros d t limit [tm [tj [_ [Hj [_ Kj]]]]] Ht F.
  rewrite Hj in Ht. injection Ht as ->.
  rewrite (get_journals_done d t limit Hj F).
  eexists. split; [reflexivity|].
  rewrite (newest_first _ journal_id _ _ limit t Kj). split; [reflexivity|].
  intros H. rewrite limit_rows_length by exact H.
  now rewrite length_map, length_rev.
Qed.





(** X7. The body of a journal entry is never read back: the listing of
    [get_journals] is the same on the database with every body blanked
    out. *)
Theorem get_journals_ignores_bodies :
  forall (d : database) (limit : Z),
    get_journals limit (erase_entries d) = get_journals limit d.
Proof.
  intros d limit. unfold get_journals, erase_entries. simpl.
  destruct (journals d) as [t|]; simpl; [|reflexivity].
  destruct (fits_int64 limit); [|reflexivity].
  rewrite (order_by_desc_map _ journal_id) by reflexivity.
  rewrite limit_rows_map, map_map. reflexivity.
Qed.

Lemma max_key_le (R : Type) (key : R -> Z) (rs : list R) (b : Z) :
  0 <= b -> Forall (fun r => key r <= b) rs -> max_key key rs <= b.
Proof.
  intros Hb. unfold max_key.
  induction 1 as [|r rs Hr _ IH]; simpl in *; lia.
Qed.

Lemma first_keys_bound (n : nat) :
  Forall (fun k => k <= Z.of_nat n) (first_keys n).
Proof.
  unfold first_keys. rewrite Forall_map, Forall_forall.
  intros x Hx. apply in_seq in Hx. lia.
Qed.

Lemma insert_numbered (R : Type) (key : R -> Z) (make : Z -> R)
      (t : table R) :
  (forall k, key (make k) = k) ->
  numbered key t ->
  numbered key (insert key make t) /\
  List.length (rows (insert key make t)) = S (List.length (rows t)).
Proof.
  intros Hmake [Hk Hs].
  assert (N : next_key key t = Z.of_nat (S (List.length (rows t)))).
  { unfold next_key. rewrite Hs.
    assert (max_key key (rows t) <= Z.of_nat (List.length (rows t))).
    { apply max_key_le; [lia|].
      pose proof (first_keys_bound (List.length (rows t))) as B.
      rewrite <- Hk, Forall_map in B. exact B. }
    lia. }
  assert (L : List.length (rows (insert key make t))
              = S (List.length (rows t))).
  { unfold insert. cbn [rows]. rewrite length_app. simpl. lia. }
  split; [|exact L]. split.
  - rewrite L. unfold insert. cbn [rows]. rewrite map_app. cbn [map].
    rewrite Hmake, N, Hk. unfold first_keys.
    rewrite seq_S, map_app. reflexivity.
  - rewrite L. unfold insert. cbn [seq]. exact N.
Qed.

Lemma execute_all_numbered (ss : list statement) :
  forall (d : database) (tm : table mood_row) (tj : table journal_row),
    moods d = Some tm -> journals d = Some tj ->
    numbered mood_id tm -> numbered journal_id tj ->
    exists d' tm' tj',
      execute_all ss d = Done d' /\
      moods d' = Some tm' /\ journals d' = Some tj' /\
      numbered mood_id tm' /\ numbered journal_id tj' /\
      List.length (rows tm') = (List.length (rows tm) + mood_saves ss)%nat /\
      List.length (rows tj')
      = (List.length (rows tj) + journal_saves ss)%nat.
Proof.
  induction ss as [|s ss IH]; intros d tm tj Hm Hj Nm Nj.
  - exists d, tm, tj. unfold mood_saves, journal_saves. simpl.
    rewrite !Nat.add_0_r. tauto.
  - destruct s as [|m n ts|ti e ts].
    + simpl. assert (E : init_db d = d).
      { unfold init_db. rewrite Hm, Hj. destruct d; simpl in *; congruence. }
      rewrite E. exact (IH d tm tj Hm Hj Nm Nj).
    + simpl. unfold save_mood. rewrite Hm.
      destruct (insert_numbered _ mood_id (fun k => mkMood k m n ts) tm)
        as [Nm' Lm]; [reflexivity | exact Nm |].
      destruct (IH (mkDb (Some (insert mood_id
                                  (fun k => mkMood k m n ts) tm))
                      (journals d)) _ tj eq_refl Hj Nm' Nj)
        as [d' [tm' [tj' [E [A [B [C [D [F G]]]]]]]]].
      exists d', tm', tj'.
      assert (List.length (rows tm')
              = (List.length (rows tm)
                 + mood_saves (call_save_mood m n ts :: ss))%nat)
        by (rewrite F, Lm; unfold mood_saves; simpl; lia).
      tauto.
    + simpl. unfold save_journal. rewrite Hj.
      destruct (insert_numbered _ journal_id
                  (fun k => mkJournal k ti e ts) tj)
        as [Nj' Lj]; [reflexivity | exact Nj |].
      destruct (IH (mkDb (moods d)
                      (Some (insert journal_id
                               (fun k => mkJournal k ti e ts) tj)))
                  tm _ Hm eq_refl Nm Nj')
        as [d' [tm' [tj' [E [A [B [C [D [F G]]]]]]]]].
      exists d', tm', tj'.
      assert (List.length (rows tj')
              = (List.length (rows tj)
                 + journal_saves (call_save_journal ti e ts :: ss))%nat)
        by (rewrite G, Lj; unfold journal_saves; simpl; lia).
      tauto.
Qed.

(** X8. Starting from a file without tables, after [init_db] and any
    calls of the three writing functions, the stored moods carry the ids
    1, 2, ..., m in the order they were logged and the journal entries
    the ids 1, 2, ..., j in the order they were saved, where m and j are
    the numbers of [save_mood] and [save_journal] calls made. *)
Theorem ids_count_the_saves :
  forall ss : list statement,
    exists d' tm tj,
      execute_all (call_init_db :: ss) no_tables = Done d' /\
      moods d' = Some tm /\ journals d' = Some tj /\
      map mood_id (rows tm) = first_keys (mood_saves ss) /\
      map journal_id (rows tj) = first_keys (journal_saves ss).
Proof.
  intros ss.
  destruct (execute_all_numbered ss (init_db no_tables)
              (mkTable [] 0) (mkTable [] 0) eq_refl eq_refl)
    as [d' [tm [tj [E [A [B [[C1 _] [[D1 _] [F G]]]]]]]]];
    try (split; reflexivity).
  exists d', tm, tj. simpl in F, G. rewrite F in C1. rewrite G in D1.
  simpl. tauto.
Qed.

End DbTheorems.

(** ** More on strings *)

Section StripFacts.
Import PyStr.
Local Open Scope string_scope.

Lemma string_app_assoc (a b c : string) : (a ++ b) ++ c = a ++ b ++ c.
Proof. induction a as [|x a IH]; simpl; [reflexivity | now rewrite IH]. Qed.

Lemma lstrip_split (s : string) :
  exists pre, s = pre ++ lstrip s /\ blank pre = true.
Proof.
  induction s as [|c s [pre [E B]]]; simpl.
  - now exists "".
  - destruct (is_space c) eqn:C.
    + exists (String c pre). simpl. now rewrite C, B, <- E.
    + now exists "".
Qed.

Lemma rstrip_split (s : string) :
  exists post, s = rstrip s ++ post /\ blank post = true.
Proof.
  induction s as [|c s [post [E B]]]; simpl.
  - now exists "".
  - destruct (is_space c && is_empty (rstrip s)) eqn:C.
    + apply andb_true_iff in C. destruct C as [C1 C2].
      destruct (rstrip s); [|discriminate]. simpl in E.
      exists (String c post). simpl. now rewrite C1, B, <- E.
    + exists post. simpl. now rewrite <- E.
Qed.

Lemma lstrip_head (s : string) (c : ascii) (rest : string) :
  lstrip s = String c rest -> is_space c = false.
Proof.
  induction s as [|a s IH]; simpl; [discriminate|].
  destruct (is_space a) eqn:A; [exact IH|].
  intros E. injection E as <- _. exact A.
Qed.

Lemma rstrip_last (s : string) :
  forall (pre : string) (c : ascii),
    rstrip s = pre ++ String c "" -> is_space c = false.
Proof.
  induction s as [|a s IH]; intros pre c; simpl.
  - destruct pre; discriminate.
  - destruct (is_space a && is_empty (rstrip s)) eqn:C.
    + destruct pre; discriminate.
    + destruct pre as [|b pre]; simpl; intros E; injection E as -> E.
      * rewrite E in C. simpl in C. now rewrite andb_true_r in C.
      * exact (IH pre c E).
Qed.

Lemma rstrip_head (s : string) (c : ascii) (rest : string) :
  rstrip s = String c rest ->
  exists rest', s = String c rest'.
Proof.
  destruct s as [|a s]; simpl; [discriminate|].
  destruct (is_space a && is_empty (rstrip s)); [discriminate|].
  intros E. injection E as -> _. now exists s.
Qed.

(** What [strip] returns: the text between a blank head and a blank tail
    of the argument, with no white space at either end. *)
Lemma strip_spec (s : string) :
  (exists pre post,
      s = pre ++ strip s ++ post /\ blank pre = true /\ blank post = true) /\
  (forall c rest, strip s = String c rest -> is_space c = false) /\
  (forall pre c, strip s = pre ++ String c "" -> is_space c = false).
Proof.
  unfold strip. split; [|split].
  - destruct (lstrip_split s) as [pre [E1 B1]].
    destruct (rstrip_split (lstrip s)) as [post [E2 B2]].
    exists pre, post. now rewrite <- E2, <- E1.
  - intros c rest E. destruct (rstrip_head _ _ _ E) as [rest' E'].
    exact (lstrip_head s c rest' E').
  - apply rstrip_last.
Qed.

Lemma slice_from_app (a b : string) : slice_from (String.length a) (a ++ b) = b.
Proof. induction a as [|c a IH]; simpl; [now destruct b | exact IH]. Qed.

Lemma slice_from_short (n : nat) (s : string) :
  (String.length s <= n)%nat -> slice_from n s = "".
Proof.
  revert s; induction n as [|n IH]; intros s H.
  - destruct s; [reflexivity | simpl in H; lia].
  - destruct s as [|c s]; [reflexivity|]. simpl in *. apply IH. lia.
Qed.

Lemma slice_from_suffix (n : nat) (s : string) :
  exists pre, s = pre ++ slice_from n s.
Proof.
  revert s; induction n as [|n IH]; intros s.
  - exists "". now destruct s.
  - destruct s as [|c s]; [now exists ""|].
    destruct (IH s) as [pre E]. exists (String c pre). simpl. now rewrite <- E.
Qed.

End StripFacts.

(** ** The pages that use the database *)

Section PagesFacts.
Import PyStr Db Pages.
Local Open Scope string_scope.

Lemma for_each_show (A : Type) (f : A -> widget) (xs : list A) (w : world) :
  for_each xs (fun x => show (f x)) w =
  Done (tt, mkWorld (shown w ++ map f xs) (file w)).
Proof.
  revert w; induction xs as [|x xs IH]; intros w; simpl.
  - unfold ret. rewrite app_nil_r. now destruct w.
  - unfold bind, show at 1. rewrite IH. simpl. now rewrite <- app_assoc.
Qed.

Lemma show_mood_listing (rows : list (string * string)) (w : world) :
  match rows with
  | [] => show (w_write "No mood entries yet. Try logging one!")
  | _ :: _ => for_each rows (fun r => show (w_write (mood_line r)))
  end w = Done (tt, mkWorld (shown w ++ mood_listing rows) (file w)).
Proof.
  destruct rows as [|r rows]; [reflexivity|].
  now rewrite (for_each_show _ (fun r => w_write (mood_line r))).
Qed.

Lemma show_journal_listing (rows : list (Z * string * string)) (w : world) :
  match rows with
  | [] => show (w_write "No journal entries yet.")
  | _ :: _ => for_each rows (fun r => show (w_write (journal_line r)))
  end w = Done (tt, mkWorld (shown w ++ journal_listing rows) (file w)).
Proof.
  destruct rows as [|r rows]; [reflexivity|].
  now rewrite (for_each_show _ (fun r => w_write (journal_line r))).
Qed.

Lemma order_by_desc_length (R : Type) (key : R -> Z) (rs : list R) :
  List.length (order_by_desc key rs) = List.length rs.
Proof.
  unfold order_by_desc. induction rs as [|r rs IH]; simpl; [reflexivity|].
  rewrite <- IH. generalize (fold_right (insert_desc key) [] rs) as l.
  induction l as [|x l IHl]; simpl; [reflexivity|].
  destruct (key x <? key r)%Z; simpl; [reflexivity | now rewrite IHl].
Qed.

(** The latest eight: never more than eight rows, and none only when the
    table is empty. *)
Lemma latest_eight (R A : Type) (key : R -> Z) (f : R -> A) (rs : list R) :
  let l := map f (limit_rows 8 (order_by_desc key rs)) in
  (List.length l <= 8)%nat /\ (l = [] <-> rs = []).
Proof.
  cbv zeta.
  change (limit_rows 8 (order_by_desc key rs))
    with (firstn 8 (order_by_desc key rs)).
  rewrite length_map, length_firstn. split; [lia|].
  pose proof (order_by_desc_length R key rs) as L.
  destruct rs as [|r rs]; [now split|].
  destruct (order_by_desc key (r :: rs)) as [|x xs]; [discriminate L|].
  simpl. split; discriminate.
Qed.

Ltac run_script :=
  cbv [bind show when update query ret]; cbn [file shown].




(** X12. Opening the mood page or the journals page without pressing
    the button never raises and leaves the database as [init_db] left
    it; the page lists what the query for the latest eight rows finds,
    which is at most eight rows, and shows the "no entries yet" line
    exactly when the table has no row. *)
Theorem viewing_pages_only_reads :
  forall (d : database) (a b now : string),
    exists wm wj tm tj ms js,
      moods (init_db d) = Some tm /\ journals (init_db d) = Some tj /\
      run (mood_page a b false now) d = Done (tt, wm) /\
      run (journals_page a b false now) d = Done (tt, wj) /\
      file wm = init_db d /\ file wj = init_db d /\
      get_mood_stats 8 (init_db d) = Done ms /\
      get_journals 8 (init_db d) = Done js /\
      shown wm =
        ([w_header "🧠 Mood Check-In"; w_subheader "Recent check-ins"]
         ++ mood_listing ms)%list /\
      shown wj =
        ([w_header "📓 Journals"; w_subheader "Create a journal entry";
          w_subheader "Recent entries"] ++ journal_listing js)%list /\
      (List.length ms <= 8)%nat /\ (List.length js <= 8)%nat /\
      (ms = [] <-> rows tm = []) /\ (js = [] <-> rows tj = []).
Proof.
  intros d a b now. unfold run.
  destruct (init_db_tables d) as [tm [tj [Hm Hj]]].
  set (d0 := init_db d) in *.
  destruct (latest_eight _ _ mood_id (fun r => (mood r, mood_ts r)) (rows tm))
    as [Lm Em].
  destruct (latest_eight _ _ journal_id
              (fun r => (journal_id r, title r, journal_ts r)) (rows tj))
    as [Lj Ej].
  unfold mood_page, journals_page. run_script.
  unfold get_mood_stats, get_journals. rewrite Hm, Hj.
  change (fits_int64 8) with true. cbv beta iota.
  rewrite show_mood_listing, show_journal_listing. cbn [file shown].
  eexists _, _, tm, tj, _, _.
  repeat (split; [reflexivity|]). cbn [file shown].
  repeat (split; [reflexivity|]).
  split; [exact Lm|]. split; [exact Lj|]. split; [exact Em | exact Ej].
Qed.

End PagesFacts.

(** ** More on the crisis check *)

Section CrisisMore.
Import PyStr Crisis.
Local Open Scope string_scope.

Lemma occurs_in_trans (a b c : string) :
  occurs_in a b -> occurs_in b c -> occurs_in a c.
Proof.
  intros [p1 [q1 ->]] [p2 [q2 ->]].
  exists (p2 ++ p1), (q1 ++ q2).
  now rewrite !string_app_assoc.
Qed.

(** X13. Flagging does not depend on case or on what surrounds the
    text: if a message is flagged, so is every message that contains, in
    any case, the same text. *)
Theorem flag_survives_case_and_context :
  forall m m' pre post : string,
    lower m' = lower m ->
    crisis_check m = true ->
    crisis_check (pre ++ m' ++ post) = true.
Proof.
  intros m m' pre post Hl Hf.
  apply crisis_check_true_iff in Hf. destruct Hf as [k [Hin Hocc]].
  apply crisis_check_true_iff. exists k. split; [exact Hin|].
  apply occurs_in_trans with (lower m); [exact Hocc|].
  exists (lower pre), (lower post). now rewrite !lower_app, Hl.
Qed.

Lemma flag_survives_case_and_context_witness :
  lower "I Want To DIE" = lower "i want to die" /\
  crisis_check "i want to die" = true /\
  crisis_check ("He wrote: " ++ "I Want To DIE" ++ " (twice)") = true.
Proof.
  assert (H1 : lower "I Want To DIE" = lower "i want to die") by reflexivity.
  assert (H2 : crisis_check "i want to die" = true) by reflexivity.
  split; [exact H1|]. split; [exact H2|].
  exact (flag_survives_case_and_context
           "i want to die" "I Want To DIE" "He wrote: " " (twice)" H1 H2).
Defined.

(** X14. The keyword "want to die" never decides the outcome: every
    message gets the same flag from the keyword list without it, because
    "die" is in the list and occurs wherever "want to die" does. *)
Theorem want_to_die_is_covered_by_die :
  forall m : string,
    crisis_check m =
    existsb (fun k => contains k (lower m))
      ["suicide"; "kill myself"; "die"; "hopeless"; "worthless";
       "end my life"].
Proof.
  intros m. apply eq_true_iff_eq. unfold crisis_check.
  rewrite !existsb_exists. split; intros [k [Hin Hk]].
  - simpl in Hin.
    destruct Hin as [<- | [<- | [<- | Hin]]];
      try (eexists; split; [|exact Hk]; simpl; tauto).
    + exists "die". split; [simpl; tauto|].
      apply contains_spec. apply contains_spec in Hk.
      apply occurs_in_trans with "want to die"; [|exact Hk].
      now exists "want to ", "".
  - exists k. split; [|exact Hk]. simpl in *. tauto.
Qed.

End CrisisMore.

(** ** More on the chat page *)

Section ReplyFacts.
Import PyStr Crisis Chat.
Local Open Scope string_scope.

Variable generated_text : string -> string.

(** X15. When the generated text is the prompt followed by a
    continuation, the stored reply is the continuation stripped; when
    the continuation is empty or only white space, the stored reply is
    the whole generated text, prompt included. *)
Theorem reply_drops_echoed_prompt :
  forall user_input rest : string,
    generated_text user_input = user_input ++ rest ->
    reply_of generated_text user_input =
    if blank rest then user_input ++ rest else strip rest.
Proof.
  intros m rest H. unfold reply_of. rewrite H, slice_from_app.
  rewrite strip_empty_blank. reflexivity.
Qed.

(** X16. The stored reply is either the whole generated text or a piece
    of it with no white space at either end; it is the whole text
    whenever the text is not longer than the prompt; and it is empty
    only when the model generated nothing. *)
Theorem reply_is_text_or_stripped_piece :
  forall user_input : string,
    let gen := generated_text user_input in
    let reply := reply_of generated_text user_input in
    (reply = gen \/
     (occurs_in reply gen /\
      (forall c rest, reply = String c rest -> is_space c = false) /\
      (forall pre c, reply = pre ++ String c "" -> is_space c = false))) /\
    ((String.length gen <= String.length user_input)%nat -> reply = gen) /\
    (reply = "" -> gen = "").
Proof.
  intros m gen reply. unfold reply, reply_of. fold gen.
  set (cut := slice_from (String.length m) gen).
  destruct (is_empty (strip cut)) eqn:E.
  - split; [now left|]. split; [reflexivity | tauto].
  - split; [|split].
    + right. destruct (strip_spec cut) as [[pre [post [C _]]] [H1 H2]].
      split; [|split; assumption].
      destruct (slice_from_suffix (String.length m) gen) as [p G].
      fold cut in G. exists (p ++ pre), post.
      apply eq_trans with (p ++ cut); [exact G|].
      apply eq_trans with (p ++ pre ++ strip cut ++ post);
        [f_equal; exact C|].
      symmetry. apply string_app_assoc.
    + intros L. unfold cut in E. rewrite (slice_from_short _ _ L) in E.
      discriminate E.
    + intros R. rewrite R in E. discriminate E.
Qed.

End ReplyFacts.

Section ReplyWitnesses.
Import PyStr Crisis Chat.
Local Open Scope string_scope.

Lemma reply_drops_echoed_prompt_witness :
  echo_model "hello" = "hello" ++ " I hear you." /\
  reply_of echo_model "hello" = "I hear you.".
Proof.
  assert (H : echo_model "hello" = "hello" ++ " I hear you.") by reflexivity.
  split; [exact H|].
  exact (reply_drops_echoed_prompt echo_model "hello" " I hear you." H).
Defined.

Lemma reply_is_text_or_stripped_piece_witness :
  (String.length ((fun _ : string => "ok") "hello")
   <= String.length "hello")%nat /\
  reply_of (fun _ => "ok") "hello" = "ok".
Proof.
  assert (H : (String.length ((fun _ : string => "ok") "hello")
               <= String.length "hello")%nat) by (simpl; lia).
  split; [exact H|].
  exact (proj1 (proj2 (reply_is_text_or_stripped_piece
                         (fun _ => "ok") "hello")) H).
Defined.

End ReplyWitnesses.

(** ** A chat session and the conversation shown *)

Section SessionFacts.
Import PyStr Crisis Chat ChatView.
Local Open Scope string_scope.

Lemma send_all_effects (sends : list (string * (string -> string))) :
  forall p : page,
    chat_history (send_all sends p)
    = (chat_history p ++ flat_map entries (exchanges sends))%list /\
    prompts (send_all sends p)
    = (prompts p ++ map fst (exchanges sends))%list.
Proof.
  induction sends as [|[m g] sends IH]; intros p; simpl.
  - now rewrite !app_nil_r.
  - destruct (blank m) eqn:B.
    + rewrite (on_send_blank g m p B). simpl.
      destruct (IH (mkPage (screen p ++ [please_type])%list (prompts p)
                      (chat_history p))) as [H1 H2].
      simpl in H1, H2. now rewrite H1, H2.
    + rewrite (on_send_not_blank g m p B). simpl.
      match goal with |- context [send_all sends ?q] =>
        destruct (IH q) as [H1 H2] end.
      simpl in H1, H2. rewrite H1, H2, <- !app_assoc. split; reflexivity.
Qed.

Lemma entries_length (xs : list (string * string)) :
  List.length (flat_map entries xs) = (2 * List.length xs)%nat.
Proof. induction xs as [|x xs IH]; simpl; [reflexivity | rewrite IH; lia]. Qed.

(** X17. Over a whole session that starts with an empty history, the
    history holds, for each message that was not blank and in the order
    sent, the user's entry followed by the reply stored for it, and the
    model was handed exactly those messages; blank messages leave no
    trace. *)
Theorem session_history_is_the_exchanges :
  forall sends : list (string * (string -> string)),
    chat_history (send_all sends empty_page)
    = flat_map entries (exchanges sends) /\
    prompts (send_all sends empty_page) = map fst (exchanges sends) /\
    List.length (chat_history (send_all sends empty_page))
    = (2 * List.length (exchanges sends))%nat.
Proof.
  intros sends. destruct (send_all_effects sends empty_page) as [H1 H2].
  simpl in H1, H2. rewrite H1, H2.
  split; [reflexivity|]. split; [reflexivity|]. apply entries_length.
Qed.

Lemma skipn_entries (j : nat) (xs : list (string * string)) :
  skipn (2 * j) (flat_map entries xs) = flat_map entries (skipn j xs).
Proof.
  revert xs; induction j as [|j IH]; intros xs; [reflexivity|].
  destruct xs as [|x xs]; [reflexivity|].
  replace (2 * S j)%nat with (S (S (2 * j))) by lia. simpl.
  apply IH.
Qed.

Lemma last_n_entries (xs : list (string * string)) :
  last_n 10 (flat_map entries xs) = flat_map entries (last_n 5 xs).
Proof.
  unfold last_n. rewrite entries_length.
  replace (2 * List.length xs - 10)%nat with (2 * (List.length xs - 5))%nat
    by lia.
  apply skipn_entries.
Qed.

Lemma bubble_entries (xs : list (string * string)) :
  map bubble (flat_map entries xs) = flat_map bubbles xs.
Proof. induction xs as [|x xs IH]; simpl; [reflexivity | now rewrite IH]. Qed.

(** X18. The conversation shown after a session: nothing at all when no
    message got through; otherwise the heading and then, for each of the
    last five exchanges, the user's line followed by the AI's line.  So
    at most ten lines are shown and the first one is always a line of the
    user. *)
Theorem conversation_shows_last_five_exchanges :
  forall sends : list (string * (string -> string)),
    conversation (chat_history (send_all sends empty_page)) =
    match exchanges sends with
    | [] => []
    | _ :: _ =>
        v_subheader "Conversation"
        :: flat_map bubbles (last_n 5 (exchanges sends))
    end /\
    (List.length (last_n 5 (exchanges sends)) <= 5)%nat.
Proof.
  intros sends.
  destruct (send_all_effects sends empty_page) as [H _].
  simpl in H. rewrite H. split.
  - destruct (exchanges sends) as [|x xs] eqn:E; [reflexivity|].
    rewrite <- E. unfold conversation.
    rewrite last_n_entries, bubble_entries. now rewrite E at 1.
  - unfold last_n. rewrite length_skipn. lia.
Qed.

End SessionFacts.

(** ** A whole run of the breathing loop *)

Section BreathingRunFacts.
Import Breathing BreathingRun.
Local Open Scope Q_scope.

Lemma clock_pairs_ind (P : list Q -> Prop) :
  P [] -> (forall c, P [c]) ->
  (forall a b rest, P rest -> P (a :: b :: rest)) ->
  forall clock, P clock.
Proof.
  intros H0 H1 H2 clock.
  assert (H : P clock /\ forall c, P (c :: clock)).
  { induction clock as [|x clock [IH1 IH2]]; [now split|].
    split; [apply IH2|]. intros c. now apply H2. }
  apply H.
Qed.

Lemma running_true (t0 now : Q) :
  running t0 now = true <-> elapsed t0 now < total_seconds.
Proof.
  unfold running. rewrite Qlt_alt.
  destruct (elapsed t0 now ?= total_seconds); split; congruence.
Qed.

Lemma prog_progress_ok (v : Z) :
  (exists x, prog_progress v = Ok x) <-> (0 <= v <= 100)%Z.
Proof.
  unfold prog_progress.
  destruct ((0 <=? v)%Z && (v <=? 100)%Z) eqn:E.
  - apply andb_true_iff in E. rewrite !Z.leb_le in E. split; eauto.
  - split; [intros [x H]; discriminate H|]. intros H.
    apply andb_false_iff in E. rewrite !Z.leb_gt in E. lia.
Qed.

(** The value handed to the progress bar stays at or under 100 exactly
    while the elapsed time is under 60.6 seconds. *)
Lemma progress_arg_upper (e : Q) :
  (progress_arg e <= 100)%Z <-> e < 303 # 5.
Proof.
  unfold progress_arg. split.
  - intros H. apply Qnot_le_lt. intros L.
    assert (M : (py_int 101 <= py_int (e / total_seconds * 100))%Z)
      by (apply py_int_le; qlra).
    change (py_int 101) with 101%Z in M. lia.
  - intros H. destruct (Qlt_le_dec e 0) as [N | N].
    + assert (M : (py_int (e / total_seconds * 100) <= py_int 0)%Z)
        by (apply py_int_le; qlra).
      change (py_int 0) with 0%Z in M. lia.
    + rewrite py_int_nonneg by qlra.
      assert (M : (Qfloor (e / total_seconds * 100) < 101)%Z).
      { rewrite Zlt_Qlt.
        apply Qle_lt_trans with (e / total_seconds * 100); [apply Qfloor_le|].
        change (inject_Z 101) with 101. qlra. }
      lia.
Qed.

Lemma progress_arg_lower (e : Q) :
  (0 <= progress_arg e)%Z <-> - (3 # 5) < e.
Proof.
  destruct (Qlt_le_dec e 0) as [N | N].
  - destruct (progress_arg_negative e N) as [_ [A B]].
    rewrite <- B. lia.
  - split; [intros _; lra|]. intros _. unfold progress_arg.
    assert (M : (py_int 0 <= py_int (e / total_seconds * 100))%Z)
      by (apply py_int_le; qlra).
    change (py_int 0) with 0%Z in M. exact M.
Qed.

(** X19. A run of the loop over a clock that, in every turn, does not
    read before the start of the session and reads less than 0.6 seconds
    later at line 228 than at line 226 never raises, and every value it
    hands to the progress bar lies in 0..100. *)
Theorem steady_run_never_raises :
  forall (t0 : Q) (clock : list Q),
    steady t0 clock ->
    snd (breathing t0 clock) = None /\
    Forall (fun s => (0 <= progressPercent s <= 100)%Z)
      (fst (breathing t0 clock)).
Proof.
  intros t0 clock. induction clock as [| c | a b rest IH] using clock_pairs_ind.
  - intros _. split; [reflexivity | constructor].
  - intros _. simpl. destruct (running t0 c); simpl;
      (split; [reflexivity|]); repeat constructor; simpl; lia.
  - intros [Hb [Hab Hrest]]. simpl.
    destruct (running t0 a) eqn:Ra.
    + apply running_true in Ra.
      assert (U : (progress_arg (elapsed t0 b) <= 100)%Z)
        by (apply progress_arg_upper; qlra).
      assert (L : (0 <= progress_arg (elapsed t0 b))%Z)
        by (apply progress_arg_lower; qlra).
      destruct (proj2 (prog_progress_ok _) (conj L U)) as [x Hx].
      rewrite Hx. destruct (IH Hrest) as [E F].
      destruct (breathing t0 rest) as [shown err]. simpl in *.
      split; [exact E|]. constructor; [simpl; lia | exact F].
    + simpl. split; [reflexivity|]. repeat constructor; simpl; lia.
Qed.

Lemma steady_run_never_raises_witness :
  steady 100 [100; 100; 101; 101 + (1 # 10); 160] /\
  snd (breathing 100 [100; 100; 101; 101 + (1 # 10); 160]) = None.
Proof.
  assert (H : steady 100 [100; 100; 101; 101 + (1 # 10); 160]).
  { simpl. repeat split; try reflexivity; unfold Qle; simpl; lia. }
  split; [exact H|].
  exact (proj1 (steady_run_never_raises 100 _ H)).
Defined.

(** X20. A turn of the loop whose test passed raises exactly when the
    clock read at line 228 is at least 0.6 seconds before the start of
    the session or at least 60.6 seconds after it: the value handed to
    the progress bar is then below 0 or above 100, and nothing more is
    shown. *)
Theorem turn_raises_iff_clock_jumped :
  forall (t0 c_test c_body : Q) (rest : list Q),
    running t0 c_test = true ->
    (breathing t0 (c_test :: c_body :: rest)
     = ([], Some StreamlitAPIException)
     <-> (elapsed t0 c_body <= - (3 # 5) \/ 303 # 5 <= elapsed t0 c_body)).
Proof.
  intros t0 a b rest Ra. simpl. rewrite Ra.
  pose proof (progress_arg_upper (elapsed t0 b)) as U.
  pose proof (progress_arg_lower (elapsed t0 b)) as L.
  pose proof (prog_progress_ok (progress_arg (elapsed t0 b))) as K.
  destruct (prog_progress (progress_arg (elapsed t0 b))) as [x|e] eqn:E.
  - assert (B : (0 <= progress_arg (elapsed t0 b) <= 100)%Z)
      by (apply K; eauto).
    split.
    + destruct (breathing t0 rest); discriminate.
    + intros [H | H]; exfalso.
      * destruct L as [L _]. specialize (L (proj1 B)). lra.
      * destruct U as [U _]. specialize (U (proj2 B)). lra.
  - destruct e. split; [|reflexivity]. intros _.
    destruct (Qlt_le_dec (- (3 # 5)) (elapsed t0 b)) as [A | A];
      [|now left].
    destruct (Qlt_le_dec (elapsed t0 b) (303 # 5)) as [C | C];
      [|now right].
    exfalso. destruct K as [_ K].
    destruct K as [x Hx]; [|discriminate Hx].
    split; [now apply L | now apply U].
Qed.

Lemma turn_raises_iff_clock_jumped_witness :
  running 100 (319 # 2) = true /\
  303 # 5 <= elapsed 100 161 /\
  breathing 100 [319 # 2; 161; 162] = ([], Some StreamlitAPIException).
Proof.
  assert (H : running 100 (319 # 2) = true) by reflexivity.
  assert (J : 303 # 5 <= elapsed 100 161) by (unfold Qle; simpl; lia).
  split; [exact H|]. split; [exact J|].
  exact (proj2 (turn_raises_iff_clock_jumped 100 (319 # 2) 161 [162] H)
           (or_intror J)).
Defined.

Lemma paced_run_length (t0 : Q) (n : nat) :
  forall clock : list Q,
    paced clock ->
    starts_after (t0 + 60 - inject_Z (Z.of_nat n)) clock ->
    (List.length (fst (breathing t0 clock)) <= n + 1)%nat.
Proof.
  induction n as [|n IH]; intros clock Hp Hs.
  - destruct clock as [|a clock]; [simpl; lia|].
    unfold starts_after in Hs. change (inject_Z (Z.of_nat 0)) with 0 in Hs.
    assert (R : running t0 a = false).
    { destruct (running t0 a) eqn:R; [|reflexivity].
      apply running_true in R. qlra. }
    simpl. rewrite R. simpl. lia.
  - destruct clock as [|a [|b rest]]; [simpl; lia | |].
    + simpl. destruct (running t0 a); simpl; lia.
    + simpl. destruct (running t0 a) eqn:R; [|simpl; lia].
      destruct (prog_progress (progress_arg (elapsed t0 b)));
        [|simpl; lia].
      unfold starts_after in Hs. cbn [paced] in Hp. destruct Hp as [Hn Hp].
      assert (Hs' : starts_after (t0 + 60 - inject_Z (Z.of_nat n)) rest).
      { destruct rest as [|c rest]; [exact I|]. unfold starts_after.
        rewrite Nat2Z.inj_succ in Hs. unfold Z.succ in Hs.
        rewrite inject_Z_plus in Hs. change (inject_Z 1) with 1 in Hs.
        lra. }
      specialize (IH rest Hp Hs').
      destruct (breathing t0 rest) as [shown err]. simpl in *. lia.
Qed.

(** X21. When each turn's test reads the clock at least one second after
    the test of the turn before, as [time.sleep(1)] arranges, and the
    first reading is not before the start of the session, the loop body
    runs at most 60 times: a run shows at most 61 states, the final one
    included. *)
Theorem paced_run_is_bounded :
  forall (t0 : Q) (clock : list Q),
    paced clock -> starts_after t0 clock ->
    (List.length (fst (breathing t0 clock)) <= 61)%nat.
Proof.
  intros t0 clock Hp Hs.
  apply (paced_run_length t0 60 clock Hp).
  destruct clock as [|c clock]; [exact I|]. unfold starts_after in *.
  change (inject_Z (Z.of_nat 60)) with 60. lra.
Qed.

Lemma paced_run_is_bounded_witness :
  paced [100; 100; 101; 101; 160] /\
  starts_after 100 [100; 100; 101; 101; 160] /\
  Nat.le (List.length (fst (breathing 100 [100; 100; 101; 101; 160]))) 61.
Proof.
  assert (Hp : paced [100; 100; 101; 101; 160]).
  { simpl. repeat split; unfold Qle; simpl; lia. }
  assert (Hs : starts_after 100 [100; 100; 101; 101; 160])
    by (unfold starts_after, Qle; simpl; lia).
  split; [exact Hp|]. split; [exact Hs|].
  exact (paced_run_is_bounded 100 _ Hp Hs).
Defined.

Lemma shown_progress_above (t0 : Q) (p : Z) :
  (p <= 100)%Z ->
  forall clock : list Q,
    Forall (fun c => (p <= progress_arg (elapsed t0 c))%Z) clock ->
    Forall (fun s => (p <= progressPercent s)%Z) (fst (breathing t0 clock)).
Proof.
  intros Hp clock.
  induction clock as [| c | a b rest IH] using clock_pairs_ind; intros H.
  - constructor.
  - simpl. destruct (running t0 c); simpl; repeat constructor. exact Hp.
  - simpl. inversion H as [|? ? _ H1]; subst.
    inversion H1 as [|? ? Hb Hrest]; subst.
    destruct (running t0 a); [|simpl; repeat constructor; exact Hp].
    destruct (prog_progress (progress_arg (elapsed t0 b)));
      [|constructor].
    specialize (IH Hrest). destruct (breathing t0 rest) as [shown err].
    simpl in *. constructor; [exact Hb | exact IH].
Qed.

(** X22. When the readings of the clock never go back, the values a run
    hands to the progress bar never go back either, the final 100
    included. *)
Theorem run_progress_never_goes_back :
  forall (t0 : Q) (clock : list Q),
    StronglySorted Qle clock ->
    StronglySorted Z.le (map progressPercent (fst (breathing t0 clock))).
Proof.
  intros t0 clock.
  induction clock as [| c | a b rest IH] using clock_pairs_ind; intros H.
  - constructor.
  - simpl. destruct (running t0 c); simpl; repeat constructor.
  - simpl. inversion H as [|? ? H1 _]; subst.
    inversion H1 as [|? ? Hrest Hb]; subst.
    destruct (running t0 a); [|simpl; repeat constructor].
    destruct (prog_progress (progress_arg (elapsed t0 b))) as [x|e] eqn:E;
      [|constructor].
    assert (B : (0 <= progress_arg (elapsed t0 b) <= 100)%Z)
      by (apply prog_progress_ok; eauto).
    pose proof (shown_progress_above t0 (progress_arg (elapsed t0 b))
                  (proj2 B) rest) as A.
    specialize (IH Hrest). destruct (breathing t0 rest) as [shown err].
    simpl in *. constructor; [exact IH|].
    rewrite Forall_map. apply A.
    eapply Forall_impl; [|exact Hb]. intros c Hc. simpl in Hc.
    unfold progress_arg. apply py_int_le. qlra.
Qed.

Lemma run_progress_never_goes_back_witness :
  StronglySorted Qle [100; 100; 130; 130; 160] /\
  StronglySorted Z.le
    (map progressPercent (fst (breathing 100 [100; 100; 130; 130; 160]))).
Proof.
  assert (H : StronglySorted Qle [100; 100; 130; 130; 160]).
  { repeat constructor; unfold Qle; simpl; lia. }
  split; [exact H|].
  exact (run_progress_never_goes_back 100 _ H).
Defined.

End BreathingRunFacts.

(** ** Examples on a small database *)

Section DbExamples.
Import PyStr Db Pages.
Local Open Scope string_scope.
Local Open Scope Z_scope.


Lemma init_db_makes_calls_safe_witness :
  fits_int64 10 = true /\
  fits_int64 9223372036854775808 = false /\
  exists d',
    execute_all (call_init_db :: demo_calls) no_tables = Done d' /\
    (exists ms js,
        get_mood_stats 10 d' = Done ms /\ get_journals 10 d' = Done js) /\
    get_mood_stats 9223372036854775808 d' = Raised OverflowError.
Proof.
  assert (F : fits_int64 10 = true) by reflexivity.
  assert (G : fits_int64 9223372036854775808 = false) by reflexivity.
  split; [exact F|]. split; [exact G|].
  destruct (proj2 init_db_makes_calls_safe demo_calls) as [d' [E [_ H]]].
  exists d'. split; [exact E|]. split.
  - exact (proj1 (H 10) F).
  - exact (proj1 (proj2 (H 9223372036854775808) G)).
Defined.

Lemma stored_rows_are_kept_witness :
  execute_all demo_calls demo_db = Done demo_db_later /\
  exists t' extra,
    moods demo_db_later = Some t' /\
    rows t' = (rows demo_moods ++ extra)%list.
Proof.
  assert (H : execute_all demo_calls demo_db = Done demo_db_later)
    by reflexivity.
  split; [exact H|].
  exact (proj1 (stored_rows_are_kept demo_calls demo_db demo_db_later H)
           demo_moods eq_refl).
Defined.

Lemma get_mood_stats_newest_first_witness :
  well_formed demo_db_later /\ fits_int64 1 = true /\
  exists ms,
    get_mood_stats 1 demo_db_later = Done ms /\
    ms = [("Sad", "2024-05-02T21:30:00.000001")].
Proof.
  assert (W : well_formed demo_db_later).
  { eexists _, _. repeat split; simpl; repeat constructor; lia. }
  split; [exact W|]. split; [reflexivity|].
  destruct (get_mood_stats_newest_first demo_db_later _ 1 W eq_refl eq_refl)
    as [ms [G [E _]]].
  exists ms. split; [exact G | exact E].
Defined.

Lemma get_journals_newest_first_witness :
  well_formed demo_db_later /\ fits_int64 8 = true /\
  exists js,
    get_journals 8 demo_db_later = Done js /\
    js = [(2, "Notes", "2024-05-02T21:31:00.000001");
          (1, "Untitled", "2024-05-01T09:05:00.000001")].
Proof.
  assert (W : well_formed demo_db_later).
  { eexists _, _. repeat split; simpl; repeat constructor; lia. }
  split; [exact W|]. split; [reflexivity|].
  destruct (get_journals_newest_first demo_db_later _ 8 W eq_refl eq_refl)
    as [js [G [E _]]].
  exists js. split; [exact G | exact E].
Defined.






Lemma viewing_pages_only_reads_witness :
  exists wm wj,
    run (mood_page "Sad" "" false "2024-05-03T08:00:00") no_tables
    = Done (tt, wm) /\
    run (journals_page "" "" false "2024-05-03T08:00:00") no_tables
    = Done (tt, wj) /\
    file wm = init_db no_tables /\ file wj = init_db no_tables.
Proof.
  destruct (viewing_pages_only_reads no_tables "Sad" ""
              "2024-05-03T08:00:00")
    as [wm [_ [_ [_ [_ [_ [_ [_ [Rm [_ [Fm _]]]]]]]]]]].
  destruct (viewing_pages_only_reads no_tables "" ""
              "2024-05-03T08:00:00")
    as [_ [wj [_ [_ [_ [_ [_ [_ [_ [Rj [_ [Fj _]]]]]]]]]]]].
  exists wm, wj. repeat split; assumption.
Defined.

End DbExamples.

(** ** The progress, the clock and the progress bar, turn by turn *)

Section TimerClaims.
Import PyStr Crisis Breathing BreathingRun.
Local Open Scope Q_scope.

(** A turn whose test passed and whose value the progress bar accepts
    shows its state and goes on with the next turn. *)
Lemma turn_shown (t0 c_test c_body : Q) (rest : list Q) :
  running t0 c_test = true ->
  - (3 # 5) < elapsed t0 c_body -> elapsed t0 c_body < 303 # 5 ->
  breathing t0 (c_test :: c_body :: rest) =
  (tick (elapsed t0 c_body) :: fst (breathing t0 rest),
   snd (breathing t0 rest)) /\
  (0 <= progress_arg (elapsed t0 c_body) <= 100)%Z.
Proof.
  intros R L U. simpl. rewrite R.
  assert (B : (0 <= progress_arg (elapsed t0 c_body) <= 100)%Z).
  { split; [now apply progress_arg_lower | now apply progress_arg_upper]. }
  destruct (proj2 (prog_progress_ok _) B) as [x Hx]. rewrite Hx.
  split; [|exact B]. now destruct (breathing t0 rest).
Qed.

(** A turn whose test passed and whose value the progress bar refuses
    raises at line 229, before any phase is shown. *)
Lemma turn_refused (t0 c_test c_body : Q) (rest : list Q) :
  running t0 c_test = true ->
  elapsed t0 c_body <= - (3 # 5) \/ 303 # 5 <= elapsed t0 c_body ->
  breathing t0 (c_test :: c_body :: rest)
  = ([], Some StreamlitAPIException).
Proof.
  intros R H. simpl. rewrite R.
  destruct (prog_progress (progress_arg (elapsed t0 c_body))) as [x|e] eqn:E;
    [|now destruct e].
  exfalso.
  assert (B : (0 <= progress_arg (elapsed t0 c_body) <= 100)%Z)
    by (apply prog_progress_ok; eauto).
  destruct H as [H | H].
  - pose proof (proj1 (progress_arg_lower _) (proj1 B)). lra.
  - pose proof (proj1 (progress_arg_upper _) (proj2 B)). lra.
Qed.

(** A test that fails ends the loop: lines 240-241. *)
Lemma loop_left (t0 c_test : Q) (rest : list Q) :
  total_seconds <= elapsed t0 c_test ->
  breathing t0 (c_test :: rest) = ([finished], None).
Proof.
  intros H. simpl.
  destruct (running t0 c_test) eqn:R; [|reflexivity].
  apply running_true in R. qlra.
Qed.

(** Where [sample] and the loop agree: when both readings of a turn are
    the instant [now] and the progress bar accepts the value, the turn
    shows [sample t0 now]; when the test fails at [now], the loop ends
    with it. *)
Lemma sample_agrees_with_loop (t0 now : Q) (rest : list Q) :
  (- (3 # 5) < elapsed t0 now -> elapsed t0 now < total_seconds ->
   breathing t0 (now :: now :: rest) =
   (sample t0 now :: fst (breathing t0 rest), snd (breathing t0 rest))) /\
  (total_seconds <= elapsed t0 now ->
   breathing t0 (now :: rest) = ([sample t0 now], None)).
Proof.
  split.
  - intros L U. rewrite (sample_running t0 now U).
    apply turn_shown; [now apply running_true | exact L | qlra].
  - intros H. rewrite (sample_finished t0 now H). now apply loop_left.
Qed.

Lemma progress_arg_floor (t : Q) :
  0 <= t -> progress_arg t = Qfloor (t / 60 * 100).
Proof. intros H. unfold progress_arg. apply py_int_nonneg. qlra. Qed.

Lemma progress_arg_matches_spec (t : Q) :
  0 <= t -> t < 303 # 5 -> progress_arg t = spec_progressPercent t.
Proof.
  intros H0 H1. rewrite (progress_arg_floor t H0). unfold spec_progressPercent.
  destruct (Qlt_le_dec t 60) as [L | L].
  - apply Qfloor_comp.
    pose proof (Q.min_l t 60 (Qlt_le_weak _ _ L)) as M.
    set (m := Qmin t 60) in *. qlra.
  - pose proof (Q.min_r t 60 L) as M. set (m := Qmin t 60) in *.
    rewrite (Qfloor_bounds (t / 60 * 100) 100),
            (Qfloor_bounds (m / 60 * 100) 100);
      try reflexivity; change (inject_Z 100) with 100; qlra.
Qed.

(** The phase just before the start of the session is the second Hold. *)
Lemma phase_just_before_start (t : Q) :
  - (4 # 1) <= t -> t < 0 -> branch (phase t) = Hold2.
Proof.
  intros L U. rewrite phase_spec. unfold spec_phaseIndex.
  rewrite (Qfloor_bounds (t / 16) (-1));
    [| change (inject_Z (-1)) with (- (1 # 1)); qlra
     | change (inject_Z (-1)) with (- (1 # 1)); qlra].
  change (inject_Z (-1)) with (- (1 # 1)).
  rewrite (Qfloor_bounds ((t - 16 * - (1 # 1)) / 4) 3);
    [reflexivity | |]; change (inject_Z 3) with 3; qlra.
Qed.

(** C4, what fails.  With the session started at 100, the test of line
    226 reads 159.5 and passes; line 228 then reads 161, so the value
    handed to the progress bar is 101 where floor(min(t, 60)/60*100) is
    100, and the progress bar raises. *)
Lemma progress_overflows_after_clock_jump :
  running 100 (319 # 2) = true /\
  progress_arg (elapsed 100 161) = 101%Z /\
  spec_progressPercent (elapsed 100 161) = 100%Z /\
  breathing 100 [319 # 2; 161; 162] = ([], Some StreamlitAPIException).
Proof. repeat split. Qed.

(** C4, amended.  The value computed at line 229 from an elapsed time
    t >= 0 is floor(t / 60 * 100), with no cap.  In a turn whose test
    passed, for t read at line 228 with 0 <= t < 60.6 seconds the state
    is shown, is not complete, and its progress is
    floor(min(t, 60) / 60 * 100), within 0..100.  Once the test of line
    226 reads an elapsed time of 60 seconds or more the session is
    complete with progress 100: at 60 seconds, at 120 seconds and at any
    later reading alike. *)
Theorem turn_progress_follows_reading :
  (forall t : Q, 0 <= t -> progress_arg t = Qfloor (t / 60 * 100)) /\
  (forall (t0 c_test c_body : Q) (rest : list Q),
      let t := elapsed t0 c_body in
      running t0 c_test = true -> 0 <= t -> t < 303 # 5 ->
      breathing t0 (c_test :: c_body :: rest) =
      (tick t :: fst (breathing t0 rest), snd (breathing t0 rest)) /\
      isComplete (tick t) = false /\
      progressPercent (tick t) = spec_progressPercent t /\
      (0 <= progressPercent (tick t) <= 100)%Z) /\
  (forall (t0 c_test : Q) (rest : list Q),
      total_seconds <= elapsed t0 c_test ->
      breathing t0 (c_test :: rest) = ([mkSample None 100 true], None)) /\
  (forall (t0 : Q) (rest : list Q),
      breathing t0 (t0 + 60 :: rest) = ([mkSample None 100 true], None) /\
      breathing t0 (t0 + 120 :: rest) = ([mkSample None 100 true], None)).
Proof.
  split; [exact progress_arg_floor|]. split; [|split].
  - intros t0 c_test c_body rest t R H0 H1.
    destruct (turn_shown t0 c_test c_body rest R) as [E B];
      [fold t; lra | exact H1 |].
    split; [exact E|]. split; [reflexivity|]. split; [|exact B].
    apply progress_arg_matches_spec; assumption.
  - intros t0 c_test rest H. now apply loop_left.
  - intros t0 rest. split; apply loop_left; qlra.
Qed.

Lemma turn_progress_follows_reading_witness :
  running 100 130 = true /\ 0 <= elapsed 100 (261 # 2) /\
  elapsed 100 (261 # 2) < 303 # 5 /\
  breathing 100 [130; 261 # 2]
  = ([mkSample (Some Hold2) 50 false], None) /\
  spec_progressPercent (elapsed 100 (261 # 2)) = 50%Z.
Proof.
  assert (R : running 100 130 = true) by reflexivity.
  assert (H0 : 0 <= elapsed 100 (261 # 2)) by (unfold Qle; simpl; lia).
  assert (H1 : elapsed 100 (261 # 2) < 303 # 5) by reflexivity.
  split; [exact R|]. split; [exact H0|]. split; [exact H1|].
  destruct (proj1 (proj2 turn_progress_follows_reading)
              100 130 (261 # 2) [] R H0 H1) as [E [_ [P _]]].
  split; [exact E|]. rewrite <- P. reflexivity.
Defined.

(** C6, what fails.  With the session started at 10 and the clock
    reading 9, the value handed to the progress bar is -1: the progress
    bar raises and nothing is shown.  With the clock reading 9.5 the
    progress is 0 but the phase shown is the second Hold.  In neither
    case does the page show Inhale with progress 0. *)
Lemma negative_elapsed_not_clamped :
  progress_arg (elapsed 10 9) = (-1)%Z /\
  breathing 10 [9; 9] = ([], Some StreamlitAPIException) /\
  breathing 10 [19 # 2; 19 # 2] = ([mkSample (Some Hold2) 0 false], None) /\
  ~ (forall t0 now : Q,
        now < t0 ->
        breathing t0 [now; now] = ([mkSample (Some Inhale) 0 false], None)).
Proof.
  split; [reflexivity|]. split; [reflexivity|]. split; [reflexivity|].
  intros H. assert (L : 9 < 10) by reflexivity.
  specialize (H 10 9 L). discriminate H.
Qed.

(** C6, amended.  When the clock read at line 228 is before the start of
    the session, the negative elapsed time t is used as it is: the value
    handed to the progress bar is t / 60 * 100 rounded toward zero, which
    is never positive.  For t of -0.6 seconds or less it is negative, the
    progress bar raises and no phase is shown; for t above -0.6 seconds
    it is 0 and the phase shown is the second Hold, not Inhale. *)
Theorem negative_elapsed_raises_or_holds :
  forall (t0 c_test c_body : Q) (rest : list Q),
    let t := elapsed t0 c_body in
    running t0 c_test = true -> c_body < t0 ->
    progress_arg t = Qceiling (t / 60 * 100) /\
    (progress_arg t <= 0)%Z /\
    (t <= - (3 # 5) ->
     (progress_arg t < 0)%Z /\
     breathing t0 (c_test :: c_body :: rest)
     = ([], Some StreamlitAPIException)) /\
    (- (3 # 5) < t ->
     breathing t0 (c_test :: c_body :: rest) =
     (mkSample (Some Hold2) 0 false :: fst (breathing t0 rest),
      snd (breathing t0 rest))).
Proof.
  intros t0 c_test c_body rest t R H.
  assert (N : t < 0) by (unfold t; qlra).
  destruct (progress_arg_negative t N) as [A [B C]].
  split; [exact A|]. split; [exact B|]. split.
  - intros L. split.
    + assert (progress_arg t <> 0%Z) by (intros E; apply C in E; lra). lia.
    + apply turn_refused; [exact R | now left].
  - intros L. destruct (turn_shown t0 c_test c_body rest R) as [E _];
      [exact L | fold t; lra |].
    rewrite E. fold t. unfold tick.
    rewrite (proj2 C L), phase_just_before_start; [reflexivity | lra | exact N].
Qed.

Lemma negative_elapsed_raises_or_holds_witness :
  running 10 9 = true /\ 9 < 10 /\ elapsed 10 9 <= - (3 # 5) /\
  breathing 10 [9; 9; 11] = ([], Some StreamlitAPIException).
Proof.
  assert (R : running 10 9 = true) by reflexivity.
  assert (H : 9 < 10) by reflexivity.
  assert (L : elapsed 10 9 <= - (3 # 5)) by (unfold Qle; simpl; lia).
  split; [exact R|]. split; [exact H|]. split; [exact L|].
  destruct (negative_elapsed_raises_or_holds 10 9 9 [11] R H)
    as [_ [_ [A _]]].
  exact (proj2 (A L)).
Defined.

(** C8, what fails.  Two runs of the loop that raise: one whose clock
    reads 9 for a session started at 10, and one whose test reads 159.5
    and whose body reads 161 for a session started at 100.  The values
    -1 and 101 are handed to the progress bar as they are. *)
Lemma loop_raises_on_clock_jump :
  breathing 10 [9; 9] = ([], Some StreamlitAPIException) /\
  breathing 100 [319 # 2; 161] = ([], Some StreamlitAPIException) /\
  ~ (forall (t0 : Q) (clock : list Q), snd (breathing t0 clock) = None).
Proof.
  split; [reflexivity|]. split; [reflexivity|].
  intros H. specialize (H 10 [9; 9]). discriminate H.
Qed.

(** C8, amended.  The crisis check treats empty and white-space-only
    input as any other input and answers false for it.  A turn of the
    timer does not raise when its test fails, where it reports
    completion, or when the elapsed time t read at line 228 lies
    strictly between -0.6 and 60.6 seconds, where it shows a state whose
    progress lies in 0..100.  The elapsed time is not normalized: a turn
    whose test passed raises whenever t is -0.6 seconds or less, or 60.6
    seconds or more. *)
Theorem checks_raise_only_on_clock_jump :
  (forall m : string, blank m = true -> crisis_check m = false) /\
  (forall (t0 c_test : Q) (rest : list Q),
      running t0 c_test = false ->
      breathing t0 (c_test :: rest) = ([finished], None)) /\
  (forall (t0 c_test c_body : Q) (rest : list Q),
      let t := elapsed t0 c_body in
      running t0 c_test = true ->
      (- (3 # 5) < t -> t < 303 # 5 ->
       breathing t0 (c_test :: c_body :: rest) =
       (tick t :: fst (breathing t0 rest), snd (breathing t0 rest)) /\
       (0 <= progressPercent (tick t) <= 100)%Z) /\
      (t <= - (3 # 5) \/ 303 # 5 <= t ->
       breathing t0 (c_test :: c_body :: rest)
       = ([], Some StreamlitAPIException))).
Proof.
  split; [exact blank_not_flagged|]. split.
  - intros t0 c_test rest R. simpl. now rewrite R.
  - intros t0 c_test c_body rest t R. split.
    + intros L U. exact (turn_shown t0 c_test c_body rest R L U).
    + intros H. exact (turn_refused t0 c_test c_body rest R H).
Qed.

Lemma checks_raise_only_on_clock_jump_witness :
  running 100 130 = true /\
  - (3 # 5) < elapsed 100 (261 # 2) /\ elapsed 100 (261 # 2) < 303 # 5 /\
  breathing 100 [130; 261 # 2; 190]
  = ([mkSample (Some Hold2) 50 false; mkSample None 100 true], None).
Proof.
  assert (R : running 100 130 = true) by reflexivity.
  assert (L : - (3 # 5) < elapsed 100 (261 # 2)) by reflexivity.
  assert (U : elapsed 100 (261 # 2) < 303 # 5) by reflexivity.
  split; [exact R|]. split; [exact L|]. split; [exact U|].
  destruct (proj1 (proj2 (proj2 checks_raise_only_on_clock_jump)
                     100 130 (261 # 2) [190] R) L U) as [E _].
  rewrite E. reflexivity.
Defined.

End TimerClaims.
